(** * Doctor-Connect: the API gateway, the chat page and the booking dialog

    A shallow embedding of [backend/server.js] (the Express gateway in
    front of the Python ML service), of the [Chat] page of the React
    frontend ([handleSend] and the send button), and of the
    conversation-driven booking core that the specification describes.

    JavaScript values are embedded as a small tagged union with the
    language's own truthiness, [||], property access and [ToString]; the
    handlers are written in an effect monad that records every downstream
    HTTP call and distinguishes returning, throwing and never settling. *)

From Stdlib Require Import ZArith String List Bool Ascii Lia.
From stdpp Require Import base strings gmap list pretty.
Import ListNotations.

#[local] Set Warnings "-register-all".

Local Open Scope Z_scope.
Local Open Scope string_scope.
Local Open Scope list_scope.

(* ===================================================================== *)
(** * JavaScript values *)
(* ===================================================================== *)

Module Js.

(** Numbers are restricted to the integers (no NaN, no fractions, printed
    in plain decimal); strings are sequences of code units below 256. *)
Inductive JsVal : Type :=
| VUndefined
| VNull
| VBool (b : bool)
| VNum (n : Z)
| VStr (s : string)
| VArr (items : list JsVal)
| VObj (fields : list (string * JsVal)).

(** ToBoolean: [undefined], [null], [false], [0] and [""] are falsy. *)
Definition truthy (v : JsVal) : bool :=
  match v with
  | VUndefined | VNull => false
  | VBool b => b
  | VNum n => negb (n =? 0)%Z
  | VStr s => negb (String.eqb s "")
  | VArr _ | VObj _ => true
  end.

(** [a || b] returns [a] itself when it is truthy, [b] otherwise. *)
Definition js_or (a b : JsVal) : JsVal := if truthy a then a else b.

Fixpoint assoc (k : string) (fs : list (string * JsVal)) : JsVal :=
  match fs with
  | [] => VUndefined
  | (k', v) :: rest => if String.eqb k k' then v else assoc k rest
  end.

(** [v.p] for the property names the program reads (none of them is a
    built-in of a primitive wrapper or of arrays).  [None] is the
    TypeError raised on [undefined] and [null]. *)
Definition prop (v : JsVal) (p : string) : option JsVal :=
  match v with
  | VUndefined | VNull => None
  | VObj fs => Some (assoc p fs)
  | _ => Some VUndefined
  end.

(** [v?.p] *)
Definition opt_prop (v : JsVal) (p : string) : JsVal :=
  match prop v p with
  | Some x => x
  | None => VUndefined
  end.

Definition join (sep : string) (parts : list string) : string :=
  match parts with
  | [] => ""
  | p :: ps => fold_left (fun acc q => acc +:+ sep +:+ q) ps p
  end.

(** ToString, as used by template literals and by [new Error(v)]. *)
Fixpoint to_string (v : JsVal) : string :=
  match v with
  | VUndefined => "undefined"
  | VNull => "null"
  | VBool true => "true"
  | VBool false => "false"
  | VNum n => pretty n
  | VStr s => s
  | VArr items =>
      join "," (map (fun x => match x with
                              | VUndefined | VNull => ""
                              | _ => to_string x
                              end) items)
  | VObj _ => "[object Object]"
  end.

Fixpoint omit_undefined (fs : list (string * JsVal)) : list (string * JsVal) :=
  match fs with
  | [] => []
  | (k, VUndefined) :: rest => omit_undefined rest
  | kv :: rest => kv :: omit_undefined rest
  end.

(** What the receiver parses after [JSON.stringify]: properties holding
    [undefined] are dropped, [undefined] array items become [null]. *)
Fixpoint json_wire (v : JsVal) : JsVal :=
  match v with
  | VArr items =>
      VArr (map (fun x => match json_wire x with
                          | VUndefined => VNull
                          | y => y
                          end) items)
  | VObj fs => VObj (omit_undefined (map (fun kv => (fst kv, json_wire (snd kv))) fs))
  | _ => v
  end.

Definition is_boolean (v : JsVal) : bool :=
  match v with VBool _ => true | _ => false end.

Definition is_string (v : JsVal) : bool :=
  match v with VStr _ => true | _ => false end.

(** Code units that [String.prototype.trim] strips (WhiteSpace and
    LineTerminator below 256): TAB, LF, VT, FF, CR, SP, NBSP. *)
Definition is_white_space (c : ascii) : bool :=
  let n := nat_of_ascii c in
  ((9 <=? n) && (n <=? 13))%nat || (n =? 32)%nat || (n =? 160)%nat.

Fixpoint trim_start (s : string) : string :=
  match s with
  | String c rest => if is_white_space c then trim_start rest else s
  | EmptyString => EmptyString
  end.

Definition trim (s : string) : string :=
  String.rev (trim_start (String.rev (trim_start s))).

(** A string made of white space only (the empty string included). *)
Fixpoint whitespace_only (s : string) : bool :=
  match s with
  | String c rest => is_white_space c && whitespace_only rest
  | EmptyString => true
  end.

(** [hay.includes(needle)] *)
Fixpoint includes (needle hay : string) : bool :=
  String.prefix needle hay ||
  match hay with
  | String _ rest => includes needle rest
  | EmptyString => false
  end.

End Js.

(* ===================================================================== *)
(** * Effects: downstream HTTP calls, exceptions, promises that never settle *)
(* ===================================================================== *)

Module Eff.
Import Js.

(** One outgoing HTTP request.  [call_timeout] is the [timeout] option in
    milliseconds; [0] is the client's default and means no timeout. *)
Record HttpCall : Type := mkCall {
  call_method : string;
  call_url : string;
  call_body : JsVal;
  call_timeout : Z
}.

(** A thrown [Error]: its [message], and [error.response] (status and
    parsed body) when the HTTP client attached one. *)
Record JsError : Type := mkError {
  message : string;
  response : option (Z * JsVal)
}.

Inductive Outcome (A : Type) : Type :=
| Done (a : A)
| Throws (e : JsError)
| Pending.

Arguments Done {A} a.
Arguments Throws {A} e.
Arguments Pending {A}.

(** A computation: the calls it issued, in order, and how it ended. *)
Definition Eff (A : Type) : Type := list HttpCall * Outcome A.

Definition ret {A} (a : A) : Eff A := ([], Done a).

Definition throw {A} (e : JsError) : Eff A := ([], Throws e).

Definition bind {A B} (m : Eff A) (k : A -> Eff B) : Eff B :=
  match m with
  | (calls, Done a) => let (calls', o) := k a in (calls ++ calls', o)
  | (calls, Throws e) => (calls, Throws e)
  | (calls, Pending) => (calls, Pending)
  end.

(** [try { m } catch (error) { h error }] *)
Definition try_catch {A} (m : Eff A) (h : JsError -> Eff A) : Eff A :=
  match m with
  | (calls, Throws e) => let (calls', o) := h e in (calls ++ calls', o)
  | _ => m
  end.

Definition outcome_of {A} (m : Eff A) : Outcome A := snd m.

Definition type_error {A} (msg : string) : Eff A :=
  throw (mkError msg None).

(** [v.p], raising the engine's TypeError on [undefined] and [null]. *)
Definition get (v : JsVal) (p : string) : Eff JsVal :=
  match prop v p with
  | Some x => ret x
  | None =>
      type_error ("Cannot read properties of " +:+ to_string v +:+
                  " (reading '" +:+ p +:+ "')")
  end.

(** [const { p } = v], with the engine's TypeError when [v] (written
    [source] in the program) is [undefined] or [null]. *)
Definition destructure (v : JsVal) (source p : string) : Eff JsVal :=
  match prop v p with
  | Some x => ret x
  | None =>
      type_error ("Cannot destructure property '" +:+ p +:+ "' of '" +:+
                  source +:+ "' as it is " +:+ to_string v +:+ ".")
  end.

(** How the service behind a call behaves: it answers after [latency]
    milliseconds with a status and a parsed body, the connection fails with
    the socket layer's message, or no answer ever comes. *)
Inductive Downstream : Type :=
| Replies (latency status : Z) (data : JsVal)
| Refuses (reason : string)
| NeverReplies.

Record AxiosResponse : Type := mkAxios {
  ax_status : Z;
  ax_data : JsVal
}.

Definition timeout_error (ms : Z) : JsError :=
  mkError ("timeout of " +:+ pretty ms +:+ "ms exceeded") None.

Definition status_error (status : Z) (data : JsVal) : JsError :=
  mkError ("Request failed with status code " +:+ pretty status)
          (Some (status, data)).

(** The HTTP client with its defaults: a positive [timeout] aborts a call
    that has not answered in time; without one the promise stays pending as
    long as the service is silent; a status outside 200..299 rejects with
    the response attached. *)
Definition settle (timeout : Z) (d : Downstream) : Outcome AxiosResponse :=
  match d with
  | Refuses reason => Throws (mkError reason None)
  | NeverReplies =>
      if (0 <? timeout)%Z then Throws (timeout_error timeout) else Pending
  | Replies latency status data =>
      if ((0 <? timeout) && (timeout <? latency))%Z
      then Throws (timeout_error timeout)
      else if ((200 <=? status) && (status <? 300))%Z
           then Done (mkAxios status data)
           else Throws (status_error status data)
  end.

Definition axios (method url : string) (body : JsVal) (timeout : Z)
    (d : Downstream) : Eff AxiosResponse :=
  ([mkCall method url body timeout], settle timeout d).

End Eff.

Declare Scope eff_scope.
Delimit Scope eff_scope with eff.
Notation "'do' x <- m 'in' k" := (Eff.bind m (fun x => k))
  (at level 10, x name, m at level 100, k at level 200, only parsing)
  : eff_scope.

(* ===================================================================== *)
(** * The gateway: [backend/server.js] *)
(* ===================================================================== *)

Module Gateway.
Import Js Eff.
Local Open Scope eff_scope.

Record HttpResponse : Type := mkResponse {
  status : Z;
  body : JsVal
}.

(** [res.json(v)] answers with status 200 unless [res.status] was called.
    A [body] of [undefined] stands for an empty response body, which is
    also what [res.json(undefined)] sends. *)
Definition res_json (v : JsVal) : Eff HttpResponse := ret (mkResponse 200 v).

(** Express sends no body with the statuses 204, 205 and 304, whatever
    [res.json] was given. *)
Definition sends_body (code : Z) : bool :=
  negb ((code =? 204)%Z || (code =? 205)%Z || (code =? 304)%Z).

(** [res.status(code).json(v)], for the status of a final HTTP response. *)
Definition res_status_json (code : Z) (v : JsVal) : Eff HttpResponse :=
  ret (mkResponse code (if sends_body code then v else VUndefined)).

(** [process.env.ML_SERVICE_URL || 'http://localhost:5001'] *)
Definition ML_SERVICE_URL_of (env : option string) : string :=
  match env with
  | Some url => if String.eqb url "" then "http://localhost:5001" else url
  | None => "http://localhost:5001"
  end.

Definition doctor (id name specialization : string) (experience : Z)
    (image_url email : string) : JsVal :=
  VObj [("id", VStr id); ("name", VStr name);
        ("specialization", VStr specialization);
        ("experience", VNum experience);
        ("image_url", VStr image_url); ("email", VStr email)].

Definition doctors : list JsVal :=
  [ doctor "1" "Dr. Elena Martinez" "Internal Medicine" 15
      "https://images.unsplash.com/photo-1559839734-2b71ea197ec2?w=400&h=400&fit=crop"
      "elena.martinez@healthconnect.com";
    doctor "2" "Dr. James Wilson" "General Practitioner" 12
      "https://images.unsplash.com/photo-1612349317150-e413f6a5b16d?w=400&h=400&fit=crop"
      "james.wilson@healthconnect.com";
    doctor "3" "Dr. Sarah Chen" "Pediatrics" 10
      "https://images.unsplash.com/photo-1594824476967-48c8b964273f?w=400&h=400&fit=crop"
      "sarah.chen@healthconnect.com";
    doctor "4" "Dr. Michael Brown" "Cardiology" 18
      "https://images.unsplash.com/photo-1622253692010-333f2da6031d?w=400&h=400&fit=crop"
      "michael.brown@healthconnect.com";
    doctor "5" "Dr. Lisa Anderson" "Dermatology" 14
      "https://images.unsplash.com/photo-1527613426441-4da17471b66d?w=400&h=400&fit=crop"
      "lisa.anderson@healthconnect.com";
    doctor "6" "Dr. David Kim" "Orthopedics" 16
      "https://images.unsplash.com/photo-1537368910025-700350fe46c7?w=400&h=400&fit=crop"
      "david.kim@healthconnect.com" ].

Section Handlers.

Variable ML_SERVICE_URL : string.

(** POST /api/init_auth *)
Definition init_auth (req_body : JsVal) (d : Downstream) : Eff HttpResponse :=
  try_catch
    (let credentials := req_body in
     do response <- axios "POST" (ML_SERVICE_URL +:+ "/set_credentials")
                   credentials 0 d in
     res_json (VObj [("success", VBool true);
                     ("message", VStr "Credentials successfully set");
                     ("mlServiceResponse", ax_data response)]))
    (fun error =>
     res_status_json 500
       (VObj [("success", VBool false);
              ("error", VStr "Failed to set credentials");
              ("details", VStr (message error))])).

(** GET /api/doctors *)
Definition get_doctors : Eff HttpResponse :=
  res_json (VObj [("success", VBool true); ("doctors", VArr doctors)]).

(** [message?.substring(0, 50)] inside the first log line: skipped on
    [undefined] and [null], fine on a string, and a TypeError on any other
    value, which has no [substring] to call. *)
Definition log_preview (message : JsVal) : Eff unit :=
  match message with
  | VUndefined | VNull | VStr _ => ret tt
  | _ => type_error "message?.substring is not a function"
  end.

(** The [catch] block of POST /api/chat. *)
Definition chat_catch (error : JsError) : Eff HttpResponse :=
  let response_data :=
    match response error with Some (_, data) => data | None => VUndefined end in
  let response_status :=
    match response error with Some (st, _) => VNum st | None => VUndefined end in
  let errorMessage :=
    js_or (js_or (opt_prop response_data "error") (VStr (message error)))
          (VStr "Failed to process chat message") in
  let errorDetails :=
    js_or (opt_prop response_data "details") (VStr (message error)) in
  res_status_json
    (match js_or response_status (VNum 500) with VNum n => n | _ => 500 end)
    (VObj [("success", VBool false);
           ("error", errorMessage);
           ("details", errorDetails);
           ("mlServiceUrl", VStr ML_SERVICE_URL)]).

(** POST /api/chat *)
Definition chat (req_body : JsVal) (d : Downstream) : Eff HttpResponse :=
  try_catch
    (do message <- destructure req_body "req.body" "message" in
     do history <- destructure req_body "req.body" "history" in
     do _logged <- log_preview message in
     if negb (truthy message) then
       res_status_json 400
         (VObj [("success", VBool false);
                ("error", VStr "Message is required")])
     else
       do response <- axios "POST" (ML_SERVICE_URL +:+ "/chat")
                        (VObj [("input", message);
                               ("message", message);
                               ("history", js_or history (VArr []))])
                        30000 d in
       do _logged <- get (ax_data response) "success" in
       do reply <- get (ax_data response) "response" in
       do flag <- get (ax_data response) "shouldTransition" in
       res_json (VObj [("success", VBool true);
                       ("response", reply);
                       ("shouldTransition", js_or flag (VBool false))]))
    chat_catch.

(** GET /api/check_auth *)
Definition check_auth (d : Downstream) : Eff HttpResponse :=
  try_catch
    (do response <- axios "GET" (ML_SERVICE_URL +:+ "/check_auth")
                      VUndefined 0 d in
     res_json (ax_data response))
    (fun error =>
     res_status_json 500
       (VObj [("success", VBool false);
              ("error", VStr "Failed to check authentication status");
              ("details", VStr (message error))])).

(** POST /api/book *)
Definition book (req_body : JsVal) (d : Downstream) : Eff HttpResponse :=
  try_catch
    (do doctorId <- destructure req_body "req.body" "doctorId" in
     do patientName <- destructure req_body "req.body" "patientName" in
     do patientEmail <- destructure req_body "req.body" "patientEmail" in
     do datetime <- destructure req_body "req.body" "datetime" in
     do response <- axios "POST" (ML_SERVICE_URL +:+ "/book_appointment")
                      (VObj [("doctor_id", doctorId);
                             ("patient_name", patientName);
                             ("patient_email", patientEmail);
                             ("datetime_iso", datetime)])
                      0 d in
     res_json (VObj [("success", VBool true);
                     ("booking", ax_data response)]))
    (fun error =>
     res_status_json 500
       (VObj [("success", VBool false);
              ("error", VStr "Failed to book appointment");
              ("details", VStr (message error))])).

(** The routes of the application. *)
Inductive Request : Type :=
| PostInitAuth (req_body : JsVal)
| GetDoctors
| PostChat (req_body : JsVal)
| GetCheckAuth
| PostBook (req_body : JsVal).

Definition serve (r : Request) (d : Downstream) : Eff HttpResponse :=
  match r with
  | PostInitAuth b => init_auth b d
  | GetDoctors => get_doctors
  | PostChat b => chat b d
  | GetCheckAuth => check_auth d
  | PostBook b => book b d
  end.

(** The answer of the directory endpoint. *)
Definition directory : HttpResponse :=
  mkResponse 200 (VObj [("success", VBool true); ("doctors", VArr doctors)]).

(** An entry of the directory carries a non-empty text under [field]. *)
Definition has_text (field : string) (entry : JsVal) : bool :=
  match opt_prop entry field with
  | VStr s => negb (String.eqb s "")
  | _ => false
  end.

(** The reading of "the body lacks a message": the property is absent,
    [null] or the empty string, or there is no body to read it from. *)
Definition lacks_message (req_body : JsVal) : bool :=
  match prop req_body "message" with
  | Some VUndefined | Some VNull => true
  | Some (VStr s) => String.eqb s ""
  | Some _ => false
  | None => true
  end.

(** The reading of "the response contains a reply text and a boolean
    terminal flag". *)
Definition reply_and_boolean_flag (resp : HttpResponse) : Prop :=
  is_string (opt_prop (body resp) "response") = true
  /\ is_boolean (opt_prop (body resp) "shouldTransition") = true.

(** The server handling requests one after the other; the module-level
    bindings ([doctors], the URL) are [const] and no handler writes to
    them, so no state is threaded. *)
Definition serve_all (rs : list (Request * Downstream))
    : list (Eff HttpResponse) :=
  map (fun rd => serve (fst rd) (snd rd)) rs.

End Handlers.

End Gateway.

(* ===================================================================== *)
(** * The chat page: [Chat] of the React frontend *)
(* ===================================================================== *)

Module ChatPage.
Import Js Eff.
Local Open Scope eff_scope.

Inductive Role : Type := user | assistant.

Record Message : Type := mkMessage {
  role : Role;
  content : JsVal
}.

(** The three [useState] cells of the component. *)
Record ChatState : Type := mkChat {
  messages : list Message;
  input : string;
  isLoading : bool
}.

Definition initial : ChatState :=
  mkChat
    [mkMessage assistant
       (VStr "Hello! I'm your medical appointment assistant. I'll help you book an appointment with the right doctor. May I have your full name please?")]
    "" false.

(** The page with a first message typed in and not yet sent. *)
Definition waiting_to_send : ChatState :=
  mkChat (messages initial) "Sarah Johnson" false.

(** What one run of the handler did besides updating the state. *)
Record UiEffects : Type := mkEffects {
  requests : list HttpCall;
  toasts : list string;
  navigations : list string
}.

Definition no_effects : UiEffects := mkEffects [] [] [].

(** What [fetch] delivers: a response with its status and its body (parsed
    JSON, or the SyntaxError message of [response.json()] when it is not
    JSON), a network failure, or nothing at all. *)
Inductive FetchResult : Type :=
| Responds (status : Z) (body : JsVal + string)
| FetchFails (reason : string)
| FetchPending.

Definition fetch (call : HttpCall) (net : FetchResult)
    : Eff (Z * (JsVal + string)) :=
  ([call],
   match net with
   | Responds st b => Done (st, b)
   | FetchFails reason => Throws (mkError reason None)
   | FetchPending => Pending
   end).

(** [response.ok] *)
Definition ok (status : Z) : bool := ((200 <=? status) && (status <=? 299))%Z.

(** [response.json()] *)
Definition json (b : JsVal + string) : Eff JsVal :=
  match b with
  | inl v => ret v
  | inr syntax_error => throw (mkError syntax_error None)
  end.

(** [throw new Error(v)] for a defined [v] *)
Definition throw_new_Error {A} (v : JsVal) : Eff A :=
  throw (mkError (to_string v) None).

Definition role_json (r : Role) : JsVal :=
  VStr (match r with user => "user" | assistant => "assistant" end).

Section Handler.

(** [import.meta.env.VITE_API_URL || 'http://localhost:3001'] *)
Variable API_URL : string.

(** The request built from the values the handler closed over: the input
    before it is cleared, the transcript before the new message. *)
Definition chat_request (st : ChatState) : HttpCall :=
  mkCall "POST" (API_URL +:+ "/api/chat")
    (VObj [("message", VStr (input st));
           ("history",
            VArr (map (fun m => VObj [("role", role_json (role m));
                                      ("content", content m)])
                      (messages st)))])
    0.

(** The [try] block of [handleSend], up to the state updates: it yields the
    reply and the transition flag, or throws. *)
Definition send_try (st : ChatState) (net : FetchResult)
    : Eff (JsVal * JsVal) :=
  do response <- fetch (chat_request st) net in
  let status := fst response in
  if negb (ok status) then
    do errorData <-
      try_catch (json (snd response))
        (fun _ => ret (VObj [("error", VStr ("HTTP " +:+ pretty status))])) in
    do error <- get errorData "error" in
    do details <- get errorData "details" in
    throw_new_Error
      (js_or (js_or error details) (VStr ("API error: " +:+ pretty status)))
  else
    do data <- json (snd response) in
    do success <- get data "success" in
    if truthy success then
      do reply <- get data "response" in
      do shouldTransition <- get data "shouldTransition" in
      ret (reply, shouldTransition)
    else
      do error <- get data "error" in
      do details <- get data "details" in
      throw_new_Error
        (js_or (js_or error details) (VStr "Failed to get response")).

Definition apology (errorMessage : string) : string :=
  "Sorry, I encountered an error: " +:+ errorMessage +:+
  ". Please make sure all services are running.".

(** [handleSend]: the guard, the three state updates before the request,
    then the outcome of the [try] block or the [catch] block.  While the
    request is pending the state is the one after the first updates. *)
Definition handleSend (st : ChatState) (net : FetchResult)
    : ChatState * UiEffects :=
  if negb (truthy (VStr (trim (input st)))) || isLoading st then
    (st, no_effects)
  else
    let userMessage := mkMessage user (VStr (input st)) in
    let sent := mkChat (messages st ++ [userMessage]) "" true in
    match send_try st net with
    | (calls, Done (reply, shouldTransition)) =>
        (mkChat (messages sent ++ [mkMessage assistant reply])
                (input sent) false,
         mkEffects calls []
           (if truthy shouldTransition then ["/doctors"] else []))
    | (calls, Throws error) =>
        let errorMessage := message error in
        (mkChat (messages sent ++
                 [mkMessage assistant (VStr (apology errorMessage))])
                (input sent) false,
         mkEffects calls [errorMessage] [])
    | (calls, Pending) => (sent, mkEffects calls [] [])
    end.

(** [disabled={isLoading || !input.trim()}] on the send button. *)
Definition send_disabled (st : ChatState) : bool :=
  isLoading st || negb (truthy (VStr (trim (input st)))).

(** [handleKeyPress]: Enter without Shift sends. *)
Definition handleKeyPress (key : string) (shiftKey : bool) (st : ChatState)
    (net : FetchResult) : ChatState * UiEffects :=
  if String.eqb key "Enter" && negb shiftKey then handleSend st net
  else (st, no_effects).

End Handler.

End ChatPage.

(* ===================================================================== *)
(** * One conversational turn, end to end *)
(* ===================================================================== *)

Module Turn.
Import Js Eff.

(** What [response.json()] makes of a response body that crossed the wire:
    an empty body is not JSON. *)
Definition received (body : JsVal) : JsVal + string :=
  match json_wire body with
  | VUndefined => inr "Unexpected end of JSON input"
  | parsed => inl parsed
  end.

(** The browser's view of the gateway's answer to the chat request.  The
    request body and the response body cross the wire as JSON. *)
Definition via_gateway (ML_SERVICE_URL : string) (call : HttpCall)
    (d : Downstream) : ChatPage.FetchResult :=
  match Gateway.chat ML_SERVICE_URL (json_wire (call_body call)) d with
  | (_, Done r) =>
      ChatPage.Responds (Gateway.status r) (received (Gateway.body r))
  | (_, Throws _) => ChatPage.FetchPending
  | (_, Pending) => ChatPage.FetchPending
  end.

(** The user presses send; the gateway forwards to the ML service, which
    behaves as [d]. *)
Definition turn (API_URL ML_SERVICE_URL : string) (st : ChatPage.ChatState)
    (d : Downstream) : ChatPage.ChatState * ChatPage.UiEffects :=
  ChatPage.handleSend API_URL st
    (via_gateway ML_SERVICE_URL (ChatPage.chat_request API_URL st) d).

(** Everything the user gets to read after a turn: the toasts and the last
    message of the transcript. *)
Definition shown (r : ChatPage.ChatState * ChatPage.UiEffects) : list string :=
  ChatPage.toasts (snd r) ++
  match last (ChatPage.messages (fst r)) with
  | Some m => [to_string (ChatPage.content m)]
  | None => []
  end.

(** The downstream call fails: the connection fails, no answer arrives, or
    the answer carries an HTTP error status. *)
Definition downstream_fails (d : Downstream) : Prop :=
  match d with
  | Refuses _ => True
  | NeverReplies => True
  | Replies latency status _ =>
      (30000 < latency \/ (400 <= status <= 599))%Z
  end.

(** The raw text of the failure, as the HTTP client and the service report
    it: the client's [error.message], and the [error] field of the
    service's error body when it sent one. *)
Definition raw_error_texts (d : Downstream) : list string :=
  match settle 30000 d with
  | Throws e =>
      message e ::
      match response e with
      | Some (_, data) =>
          match opt_prop data "error" with VStr s => [s] | _ => [] end
      | None => []
      end
  | _ => []
  end.

(** The reading of "no raw external-dependency error reaches the end user
    verbatim": no text shown after the turn contains a raw error text. *)
Definition hides_raw_errors (API_URL ML_SERVICE_URL : string)
    (st : ChatPage.ChatState) (d : Downstream) : Prop :=
  forall raw text,
    In raw (raw_error_texts d) -> raw <> "" ->
    In text (shown (turn API_URL ML_SERVICE_URL st d)) ->
    includes raw text = false.

(** The [error] field the gateway's [catch] block computes for a failure. *)
Definition relayed_error (e : JsError) : JsVal :=
  js_or (js_or (opt_prop (match response e with
                          | Some (_, data) => data
                          | None => VUndefined
                          end) "error")
               (VStr (message e)))
        (VStr "Failed to process chat message").

End Turn.

(* ===================================================================== *)
(** * The booking core *)
(* ===================================================================== *)

Module Core.

(** Modelled from the spec: the states of the Conversation State Machine
    (section 4.5).  The dialog manager itself runs inside the Python ML
    service ([appointment_agent.py], [calendar_service.py],
    [ml_service.py]), which is not among the sources. *)
Inductive State : Type :=
| AwaitingName
| AwaitingSymptoms
| AwaitingDatetime
| AwaitingConfirmation
| Booked
| Cancelled
| Failed.

(** Modelled from the spec: the terminal states (glossary, section 4.5). *)
Definition terminal (s : State) : bool :=
  match s with
  | Booked | Cancelled | Failed => true
  | _ => false
  end.

(** Modelled from the spec: the state that follows in the chain
    [AwaitingName -> AwaitingSymptoms -> AwaitingDatetime ->
    AwaitingConfirmation -> Booked]; terminal states have no successor. *)
Definition next (s : State) : State :=
  match s with
  | AwaitingName => AwaitingSymptoms
  | AwaitingSymptoms => AwaitingDatetime
  | AwaitingDatetime => AwaitingConfirmation
  | AwaitingConfirmation => Booked
  | Booked => Booked
  | Cancelled => Cancelled
  | Failed => Failed
  end.

(** Timestamps are minutes in the single fixed timezone. *)
Definition Timestamp : Type := Z.

(** Modelled from the spec: the ConversationSession of section 3. *)
Record ConversationSession : Type := mkSession {
  sessionId : string;
  state : State;
  patientName : option string;
  symptomText : option string;
  doctorId : option string;
  requestedTime : option Timestamp;
  confirmed : bool;
  bookingRef : option string;
  createdAt : Timestamp;
  lastUpdatedAt : Timestamp;
  turnCount : nat
}.

Definition new_session (sid : string) (now : Timestamp) : ConversationSession :=
  mkSession sid AwaitingName None None None None false None now now 0.

Definition set_state (st : State) (s : ConversationSession) :=
  mkSession (sessionId s) st (patientName s) (symptomText s) (doctorId s)
    (requestedTime s) (confirmed s) (bookingRef s) (createdAt s)
    (lastUpdatedAt s) (turnCount s).

Definition set_name (n : string) (s : ConversationSession) :=
  mkSession (sessionId s) (state s) (Some n) (symptomText s) (doctorId s)
    (requestedTime s) (confirmed s) (bookingRef s) (createdAt s)
    (lastUpdatedAt s) (turnCount s).

Definition set_symptom (text doctor : string) (s : ConversationSession) :=
  mkSession (sessionId s) (state s) (patientName s) (Some text) (Some doctor)
    (requestedTime s) (confirmed s) (bookingRef s) (createdAt s)
    (lastUpdatedAt s) (turnCount s).

Definition set_time (t : option Timestamp) (s : ConversationSession) :=
  mkSession (sessionId s) (state s) (patientName s) (symptomText s)
    (doctorId s) t (confirmed s) (bookingRef s) (createdAt s)
    (lastUpdatedAt s) (turnCount s).

Definition set_booked (ref : string) (s : ConversationSession) :=
  mkSession (sessionId s) Booked (patientName s) (symptomText s) (doctorId s)
    (requestedTime s) true (Some ref) (createdAt s) (lastUpdatedAt s)
    (turnCount s).

(** Every processed turn is counted and stamped. *)
Definition touch (now : Timestamp) (s : ConversationSession) :=
  mkSession (sessionId s) (state s) (patientName s) (symptomText s)
    (doctorId s) (requestedTime s) (confirmed s) (bookingRef s) (createdAt s)
    now (S (turnCount s)).

Inductive Confirmation : Type := affirm | deny | unclear.

Inductive ParseError : Type := PastDate | Unparseable.

Inductive Resolved : Type :=
| Resolves (t : Timestamp)
| ParseFails (e : ParseError).

(** Modelled from the spec: the language-dependent tables that the spec
    fixes only by their contract: the recogniser of time components
    (absolute, relative-day and bare clock phrases, read against
    [referenceNow] in the fixed timezone; [None] when the utterance holds no
    recognisable time component), the keyword classifier of confirmations,
    the detector of an explicit cancel intent, the tokenizer and the ordered
    rule table of the Doctor Matcher with its default doctor. *)
Class Language : Type := mkLanguage {
  recognise_time : string -> Timestamp -> option Timestamp;
  classify : string -> Confirmation;
  cancel_intent : string -> bool;
  tokenize : string -> list string;
  rules : list (list string * string);
  default_doctor : string
}.

Section WithLanguage.

Context {L : Language}.

(** Modelled from the spec: the Doctor Matcher (4.2); the first rule sharing
    a keyword with the tokens wins, otherwise the default doctor. *)
Fixpoint first_match (tokens : list string) (rs : list (list string * string))
    : option string :=
  match rs with
  | [] => None
  | (keywords, doctor) :: rest =>
      if existsb (fun k => existsb (String.eqb k) tokens) keywords
      then Some doctor
      else first_match tokens rest
  end.

(** Modelled from the spec: [match(symptomText)], total. *)
Definition match_doctor (symptomText : string) : string :=
  match first_match (tokenize symptomText) rules with
  | Some doctor => doctor
  | None => default_doctor
  end.

(** Modelled from the spec: the Datetime Resolver (4.3), policies (1) and
    (2): no time component is [Unparseable], a time strictly before
    [referenceNow] is [PastDate]. *)
Definition resolve (text : string) (referenceNow : Timestamp) : Resolved :=
  match recognise_time text referenceNow with
  | None => ParseFails Unparseable
  | Some t => if (t <? referenceNow)%Z then ParseFails PastDate else Resolves t
  end.

(** Modelled from the spec: the result of the Field Extractor (4.1), one
    tagged variant per field; only the field the current state expects is
    looked for. *)
Inductive ExtractionResult : Type :=
| NameField (v : option string)
| SymptomField (v : option string)
| TimeField (r : Resolved)
| ConfirmationField (c : Confirmation)
| NoField.

(** Modelled from the spec: "any non-empty trimmed string". *)
Definition non_blank (text : string) : bool :=
  negb (String.eqb (Js.trim text) "").

(** Modelled from the spec: the Field Extractor (4.1): the trimmed
    utterance as name, the whole utterance as symptom text, the resolved
    time, the classified confirmation, each only in its own state. *)
Definition extract (utterance : string) (now : Timestamp)
    (s : ConversationSession) : ExtractionResult :=
  match state s with
  | AwaitingName =>
      NameField (if non_blank utterance then Some (Js.trim utterance) else None)
  | AwaitingSymptoms =>
      SymptomField (if non_blank utterance then Some utterance else None)
  | AwaitingDatetime => TimeField (resolve utterance now)
  | AwaitingConfirmation => ConfirmationField (classify utterance)
  | Booked | Cancelled | Failed => NoField
  end.

End WithLanguage.

(** Modelled from the spec: the calendar collaborator (section 6).  An
    event remembers the idempotency key it was created under. *)
Record CalEvent : Type := mkEvent {
  ev_doctor : string;
  ev_start : Timestamp;
  ev_end : Timestamp;
  ev_patient : string;
  ev_key : string;
  ev_ref : string
}.

Definition Calendar : Type := list CalEvent.

(** Modelled from the spec: the fixed appointment duration, in minutes. *)
Definition duration : Z := 30.

Definition overlaps (doctor : string) (start : Timestamp) (ev : CalEvent) : bool :=
  String.eqb doctor (ev_doctor ev) &&
  ((start <? ev_end ev) && (ev_start ev <? start + duration))%Z.

Definition queryConflicts (cal : Calendar) (doctor : string) (start : Timestamp)
    : list CalEvent :=
  filter (fun ev => overlaps doctor start ev = true) cal.

Definition bookings_for (key : string) (cal : Calendar) : list CalEvent :=
  filter (fun ev => ev_key ev = key) cal.

(** Modelled from the spec: [createEvent] with an idempotency key that the
    collaborator recognises: a key seen before yields the reference of the
    event created under it and writes nothing; [fresh] is the reference the
    collaborator mints for a new event. *)
Definition createEvent (cal : Calendar) (doctor : string) (start : Timestamp)
    (patient key fresh : string) : Calendar * string :=
  match bookings_for key cal with
  | ev :: _ => (cal, ev_ref ev)
  | [] => (cal ++ [mkEvent doctor start (start + duration)%Z patient key fresh],
           fresh)
  end.

(** Modelled from the spec: what happens to one external call (4.4,
    section 5): it is answered in time; it reaches the collaborator and
    takes effect but the answer misses the timeout; or it has no effect
    (timeout, RateLimited, ServiceUnavailable). *)
Inductive CallFate : Type := Answered | AppliedButLost | Dropped.

Inductive BookResult : Type :=
| BookingRef (ref : string)
| Conflict
| TransientFailure.

Definition max_attempts : nat := 3.

(** Modelled from the spec: the availability query under the bounded
    retry; it is read-only. *)
Fixpoint query_with_retry (attempts : nat) (fates : list CallFate)
    : bool * list CallFate :=
  match attempts with
  | O => (false, fates)
  | S n =>
      match fates with
      | [] => (true, [])
      | Answered :: rest => (true, rest)
      | _ :: rest => query_with_retry n rest
      end
  end.

(** Modelled from the spec: the create call under the bounded retry,
    every attempt with the same idempotency key. *)
Fixpoint create_with_retry (attempts : nat) (fates : list CallFate)
    (cal : Calendar) (doctor : string) (start : Timestamp)
    (patient key fresh : string) : Calendar * option string :=
  match attempts with
  | O => (cal, None)
  | S n =>
      match fates with
      | [] | Answered :: _ =>
          let (cal', ref) := createEvent cal doctor start patient key fresh in
          (cal', Some ref)
      | AppliedButLost :: rest =>
          let (cal', _) := createEvent cal doctor start patient key fresh in
          create_with_retry n rest cal' doctor start patient key fresh
      | Dropped :: rest =>
          create_with_retry n rest cal doctor start patient key fresh
      end
  end.

(** Modelled from the spec: the Availability and Booking Gateway (4.4):
    query, [Conflict] on any overlap, otherwise one idempotent create keyed
    by the session, with at most [max_attempts] attempts per call. *)
Definition tryBook (cal : Calendar) (key doctor : string) (start : Timestamp)
    (patient : string) (fates : list CallFate) (fresh : string)
    : Calendar * BookResult :=
  match query_with_retry max_attempts fates with
  | (false, _) => (cal, TransientFailure)
  | (true, rest) =>
      match queryConflicts cal doctor start with
      | _ :: _ => (cal, Conflict)
      | [] =>
          match create_with_retry max_attempts rest cal doctor start
                  patient key fresh with
          | (cal', Some ref) => (cal', BookingRef ref)
          | (cal', None) => (cal', TransientFailure)
          end
      end
  end.

(** Modelled from the spec: what arrives for a session: an utterance, or
    the signal of an unrecoverable internal error. *)
Inductive Input : Type :=
| Utterance (text : string)
| InternalError.

(** Modelled from the spec: one delivery: the input, [referenceNow], and
    what the environment does to the external calls of this turn ([fresh]
    is the reference the calendar would mint). *)
Record Delivery : Type := mkDelivery {
  what : Input;
  now : Timestamp;
  fates : list CallFate;
  fresh : string
}.

(** Modelled from the spec: the replies, by kind (the spec fixes no
    wording); [terminalFlag] is derived from the state. *)
Inductive Prompt : Type :=
| AskName
| AskSymptoms
| AskDatetime
| Clarify (e : ParseError)
| Summary (name doctor : string) (t : Timestamp)
| AskConfirmation
| Confirmed (ref : string)
| SlotTaken
| TryAgainShortly
| Goodbye
| OperatorNotified
| SessionClosed.

Section Machine.

Context {L : Language}.

(** Modelled from the spec: the transitions of section 4.5.  A terminal
    session takes no transition; an internal error fails the session; an
    explicit cancel intent cancels it; otherwise the field the state expects
    decides. *)
Definition step (cal : Calendar) (s : ConversationSession) (d : Delivery)
    : Calendar * ConversationSession * Prompt :=
  if terminal (state s) then (cal, s, SessionClosed)
  else
    let s := touch (now d) s in
    match what d with
    | InternalError => (cal, set_state Failed s, OperatorNotified)
    | Utterance text =>
        if cancel_intent text then (cal, set_state Cancelled s, Goodbye)
        else
          match extract text (now d) s with
          | NameField (Some name) =>
              (cal, set_state AwaitingSymptoms (set_name name s), AskSymptoms)
          | NameField None => (cal, s, AskName)
          | SymptomField (Some symptoms) =>
              (cal,
               set_state AwaitingDatetime
                 (set_symptom symptoms (match_doctor symptoms) s),
               AskDatetime)
          | SymptomField None => (cal, s, AskSymptoms)
          | TimeField (Resolves t) =>
              match patientName s, doctorId s with
              | Some name, Some doctor =>
                  (cal, set_state AwaitingConfirmation (set_time (Some t) s),
                   Summary name doctor t)
              | _, _ => (cal, set_state Failed s, OperatorNotified)
              end
          | TimeField (ParseFails e) => (cal, s, Clarify e)
          | ConfirmationField affirm =>
              match patientName s, doctorId s, requestedTime s with
              | Some name, Some doctor, Some t =>
                  match tryBook cal (sessionId s) doctor t name
                          (fates d) (fresh d) with
                  | (cal', BookingRef ref) =>
                      (cal', set_booked ref s, Confirmed ref)
                  | (cal', Conflict) =>
                      (cal', set_state AwaitingDatetime (set_time None s),
                       SlotTaken)
                  | (cal', TransientFailure) => (cal', s, TryAgainShortly)
                  end
              | _, _, _ => (cal, set_state Failed s, OperatorNotified)
              end
          | ConfirmationField deny =>
              (cal, set_state AwaitingDatetime (set_time None s), AskDatetime)
          | ConfirmationField unclear => (cal, s, AskConfirmation)
          | NoField => (cal, s, SessionClosed)
          end
    end.

Definition terminalFlag (s : ConversationSession) : bool := terminal (state s).

(** Modelled from the spec: the session store (key-value by [sessionId])
    and the calendar, shared by all sessions. *)
Record System : Type := mkSystem {
  sessions : gmap string ConversationSession;
  calendar : Calendar
}.

Definition start (cal : Calendar) : System := mkSystem ∅ cal.

(** Modelled from the spec: a session is created by its first delivery. *)
Definition session_of (sys : System) (sid : string) (d : Delivery)
    : ConversationSession :=
  match sessions sys !! sid with
  | Some s => s
  | None => new_session sid (now d)
  end.

(** Modelled from the spec: deliveries are processed one at a time (single
    writer per session, one critical section around the calendar calls,
    section 5). *)
Definition deliver (sys : System) (sid : string) (d : Delivery)
    : System * (Prompt * bool) :=
  match step (calendar sys) (session_of sys sid d) d with
  | (cal', s', p) =>
      (mkSystem (<[sid := s']> (sessions sys)) cal', (p, terminalFlag s'))
  end.

Fixpoint run (sys : System) (inputs : list (string * Delivery)) : System :=
  match inputs with
  | [] => sys
  | (sid, d) :: rest => run (fst (deliver sys sid d)) rest
  end.

(** The replies of a run, each with the session it went to. *)
Fixpoint transcript (sys : System) (inputs : list (string * Delivery))
    : list (string * Prompt) :=
  match inputs with
  | [] => []
  | (sid, d) :: rest =>
      (sid, fst (snd (deliver sys sid d)))
      :: transcript (fst (deliver sys sid d)) rest
  end.

Definition is_confirmation (sid : string) (entry : string * Prompt) : bool :=
  String.eqb (fst entry) sid &&
  match snd entry with
  | Confirmed _ => true
  | _ => false
  end.

(** How many times a session was told that its booking succeeded. *)
Fixpoint confirmations (sid : string) (tr : list (string * Prompt)) : nat :=
  match tr with
  | [] => 0
  | entry :: rest =>
      (if is_confirmation sid entry then 1 else 0) + confirmations sid rest
  end.

(** [bookingRef] is set exactly in [Booked] (invariant of section 3). *)
Definition ref_iff_booked (s : ConversationSession) : Prop :=
  is_Some (bookingRef s) <-> state s = Booked.

(** Every stored session sits under its own identifier and satisfies the
    invariant. *)
Definition sys_ok (sys : System) : Prop :=
  forall k s, sessions sys !! k = Some s ->
              sessionId s = k /\ ref_iff_booked s.

Definition stored_ref (sys : System) (sid : string) : option string :=
  match sessions sys !! sid with
  | Some s => bookingRef s
  | None => None
  end.

Definition state_in (sys : System) (sid : string) : option State :=
  state <$> sessions sys !! sid.

End Machine.

(** Modelled from the spec: a phrase table just large enough for the
    spec's worked examples ("tomorrow at 2pm", "yes"), with days of 1440
    minutes. *)
Definition day_start (t : Timestamp) : Timestamp := (t - t mod 1440)%Z.

Definition examples : Language :=
  mkLanguage
    (fun text now =>
       if String.eqb text "today at 1pm" then Some (day_start now + 13 * 60)%Z
       else if String.eqb text "tomorrow at 2pm"
            then Some (day_start now + 1440 + 14 * 60)%Z
            else None)
    (fun text =>
       if String.eqb text "yes" then affirm
       else if String.eqb text "no" then deny else unclear)
    (fun text => String.eqb text "cancel")
    (fun text => String.words text)
    [(["headache"; "fever"], "general-practitioner");
     (["rash"], "dermatologist")]
    "general-practitioner".

(** Deliveries used by the worked examples: an utterance at minute 1000
    with every external call answered, and a confirmation whose create
    call is applied twice without an answer reaching the gateway. *)
Definition said (text : string) : Delivery :=
  mkDelivery (Utterance text) 1000 [] "evt-1".

Definition confirmed_after_timeouts : Delivery :=
  mkDelivery (Utterance "yes") 1000
    [Answered; AppliedButLost; AppliedButLost; Answered] "evt-1".

(** The end-to-end example of the spec (section 8, item 6), with the
    confirming utterance delivered a second time. *)
Definition booking_dialog : list (string * Delivery) :=
  [("s1", said "Sarah Johnson");
   ("s1", said "I have a bad headache and fever");
   ("s1", said "tomorrow at 2pm");
   ("s1", confirmed_after_timeouts);
   ("s1", said "yes")].

Definition booked_session : ConversationSession :=
  mkSession "s1" Booked (Some "Sarah Johnson")
    (Some "I have a bad headache and fever") (Some "general-practitioner")
    (Some 2280%Z) true (Some "evt-1") 1000 1000 4.






End Core.

(* ===================================================================== *)
(** * The doctors page: [Doctors] of the React frontend *)
(* ===================================================================== *)

Module DoctorsPage.

(** A [toast.success(title, { description })]. *)
Record Toast : Type := mkToast {
  title : string;
  description : string
}.

(** The [useState] cell [selectedDoctor] ([null] is [None]), the callbacks
    handed to [setTimeout] and not yet run (each closed over its
    [doctorName]; all have the same delay of 1500 ms, so they run in the
    order they were scheduled), and the toasts shown so far. *)
Record DoctorsState : Type := mkDoctors {
  selectedDoctor : option string;
  timers : list string;
  toasts : list Toast
}.

Definition initial : DoctorsState := mkDoctors None [] [].

(** [handleConfirmBooking]: select the doctor and schedule the mock
    confirmation.  Nothing in the [try] block throws, so the [catch] block
    with its error toast is never entered; no request is made. *)
Definition handleConfirmBooking (doctorId doctorName : string)
    (st : DoctorsState) : DoctorsState :=
  mkDoctors (Some doctorId) (timers st ++ [doctorName]) (toasts st).

Definition confirmation (doctorName : string) : Toast :=
  mkToast ("Appointment confirmed with " +:+ doctorName +:+ "!")
          "You'll receive a confirmation email shortly.".

(** The oldest pending callback runs: the success toast, then
    [setSelectedDoctor(null)]. *)
Definition timer_fires (st : DoctorsState) : DoctorsState :=
  match timers st with
  | [] => st
  | doctorName :: rest =>
      mkDoctors None rest (toasts st ++ [confirmation doctorName])
  end.

(** [disabled={selectedDoctor === doctor.id}] on both booking buttons. *)
Definition button_disabled (st : DoctorsState) (doctorId : string) : bool :=
  match selectedDoctor st with
  | Some selected => String.eqb selected doctorId
  | None => false
  end.

Inductive Event : Type :=
| Click (doctorId doctorName : string)
| TimerFires.

(** A click on a disabled button does not reach the handler. *)
Definition react (st : DoctorsState) (e : Event) : DoctorsState :=
  match e with
  | Click doctorId doctorName =>
      if button_disabled st doctorId then st
      else handleConfirmBooking doctorId doctorName st
  | TimerFires => timer_fires st
  end.

Definition run (st : DoctorsState) (events : list Event) : DoctorsState :=
  fold_left react events st.

End DoctorsPage.

(* ===================================================================== *)
(** * The dashboard: the chat preview of [Dashboard] *)
(* ===================================================================== *)

Module DashboardPage.

Record Sample : Type := mkSample {
  role : string;
  text : string
}.

Definition sampleMessages : list Sample :=
  [ mkSample "user" "Hi, I need to book an appointment";
    mkSample "bot" "Hello! I'd be happy to help you book an appointment. May I have your full name please?";
    mkSample "user" "My name is Sarah Johnson";
    mkSample "bot" "Nice to meet you, Sarah! Could you please provide your email address?";
    mkSample "user" "It's sarah.johnson@email.com";
    mkSample "bot" "Thank you! What brings you in today? Please describe your symptoms or reason for the visit." ].

(** The effect on [messageIndex]: below the length a timer of 1500 ms is
    set and its callback adds one; at the length no timer is set and the
    index stays.  One period of 1500 ms: *)
Definition period (messageIndex : nat) : nat :=
  if (messageIndex <? length sampleMessages)%nat
  then S messageIndex
  else messageIndex.

(** [messageIndex] after [n] periods, starting from [useState(0)]. *)
Fixpoint after (n : nat) : nat :=
  match n with
  | O => O
  | S m => period (after m)
  end.

(** [sampleMessages.slice(0, messageIndex)] *)
Definition preview (messageIndex : nat) : list Sample :=
  firstn messageIndex sampleMessages.

(** [messageIndex < sampleMessages.length]: the typing dots are shown. *)
Definition typing (messageIndex : nat) : bool :=
  (messageIndex <? length sampleMessages)%nat.

End DashboardPage.

(* ===================================================================== *)
(** * Properties of the gateway *)
(* ===================================================================== *)

Section GatewayProperties.
Import Js Eff Gateway.

Variable ML_SERVICE_URL : string.

Lemma serve_all_app (rs1 rs2 : list (Request * Downstream)) :
  serve_all ML_SERVICE_URL (rs1 ++ rs2) =
  serve_all ML_SERVICE_URL rs1 ++ serve_all ML_SERVICE_URL rs2.
Proof. unfold serve_all. apply map_app. Qed.

(** C5: every request to the doctor directory, whatever was served before
    it and however the ML service behaves, is answered without any
    downstream call by status 200 with [success: true] and the fixed list
    [doctors]; every entry of that list has an id, a name and a
    specialization. *)
Theorem doctors_endpoint_static :
  (forall (earlier : list (Request * Downstream)) (d : Downstream),
     last (serve_all ML_SERVICE_URL (earlier ++ [(GetDoctors, d)]))
     = Some ([], Done directory))
  /\ opt_prop (body directory) "success" = VBool true
  /\ opt_prop (body directory) "doctors" = VArr doctors
  /\ Forall (fun entry => has_text "id" entry = true
                          /\ has_text "name" entry = true
                          /\ has_text "specialization" entry = true) doctors.
Proof.
  split; [| split; [reflexivity | split; [reflexivity |]]].
  - intros earlier d. rewrite serve_all_app. apply last_snoc.
  - repeat constructor.
Qed.

(** C9, at the failing input and around it: a chat request that lacks a
    message never leads to a call to the ML service; when the request has a
    body (the property is absent, [null] or the empty string) the route
    answers 400 with [success: false], but when the request has no parsed
    body at all the destructuring throws before the guard is reached and
    the route answers 500. *)
Theorem chat_requires_message (req_body : JsVal) (d : Downstream) :
  lacks_message req_body = true ->
  fst (chat ML_SERVICE_URL req_body d) = []
  /\ outcome_of (chat ML_SERVICE_URL req_body d) =
     match prop req_body "message" with
     | Some _ =>
         Done (mkResponse 400
                 (VObj [("success", VBool false);
                        ("error", VStr "Message is required")]))
     | None =>
         Done (mkResponse 500
                 (VObj [("success", VBool false);
                        ("error",
                         VStr ("Cannot destructure property 'message' of " +:+
                               "'req.body' as it is " +:+
                               to_string req_body +:+ "."));
                        ("details",
                         VStr ("Cannot destructure property 'message' of " +:+
                               "'req.body' as it is " +:+
                               to_string req_body +:+ "."));
                        ("mlServiceUrl", VStr ML_SERVICE_URL)]))
     end.
Proof.
  unfold lacks_message, chat, destructure.
  destruct (prop req_body "message") as [m |] eqn:Hm.
  - intros Hfalsy.
    assert (Hh : exists h, prop req_body "history" = Some h).
    { destruct req_body; simpl in Hm |- *; try discriminate; eauto. }
    destruct Hh as [h ->].
    destruct m as [| | b | n | s | items | fields];
      try discriminate Hfalsy; try (split; reflexivity).
    apply String.eqb_eq in Hfalsy. subst s. split; reflexivity.
  - intros _. split; reflexivity.
Qed.

(** C4, at the failing input: with an ML service that accepts the request
    and never answers, the chat route answers (its call carries the
    30 second timeout), while the booking route and both auth routes issue
    their call with no timeout and never answer. *)
Theorem only_chat_call_has_timeout (fields : list (string * JsVal))
    (message : string) (credentials : JsVal) :
  assoc "message" fields = VStr message -> message <> "" ->
  (exists call resp,
     chat ML_SERVICE_URL (VObj fields) NeverReplies = ([call], Done resp)
     /\ call_timeout call = 30000%Z /\ status resp = 500%Z)
  /\ (exists call,
        book ML_SERVICE_URL (VObj fields) NeverReplies = ([call], Pending)
        /\ call_timeout call = 0%Z)
  /\ (exists call,
        init_auth ML_SERVICE_URL credentials NeverReplies = ([call], Pending)
        /\ call_timeout call = 0%Z)
  /\ (exists call,
        check_auth ML_SERVICE_URL NeverReplies = ([call], Pending)
        /\ call_timeout call = 0%Z).
Proof.
  intros Hm Hne. repeat split.
  - unfold chat, destructure. simpl. rewrite Hm. simpl.
    destruct (String.eqb_spec message "") as [-> | _]; [congruence |].
    simpl. eexists _, _. split; [reflexivity |]. split; reflexivity.
  - eexists. split; reflexivity.
  - eexists. split; reflexivity.
  - eexists. split; reflexivity.
Qed.

End GatewayProperties.

Lemma only_chat_call_has_timeout_witness :
  exists call,
    Gateway.book "http://localhost:5001"
      (Js.VObj [("message", Js.VStr "Hello"); ("doctorId", Js.VStr "1")])
      Eff.NeverReplies = ([call], Eff.Pending)
    /\ Eff.call_timeout call = 0%Z.
Proof.
  apply (only_chat_call_has_timeout "http://localhost:5001"
           [("message", Js.VStr "Hello"); ("doctorId", Js.VStr "1")]
           "Hello" Js.VNull); [reflexivity | discriminate].
Defined.

Lemma chat_requires_message_witness :
  Eff.outcome_of
    (Gateway.chat "http://localhost:5001" Js.VUndefined Eff.NeverReplies)
  = Eff.Done
      (Gateway.mkResponse 500
         (Js.VObj
            [("success", Js.VBool false);
             ("error",
              Js.VStr "Cannot destructure property 'message' of 'req.body' as it is undefined.");
             ("details",
              Js.VStr "Cannot destructure property 'message' of 'req.body' as it is undefined.");
             ("mlServiceUrl", Js.VStr "http://localhost:5001")])).
Proof.
  apply (chat_requires_message "http://localhost:5001" Js.VUndefined
           Eff.NeverReplies).
  reflexivity.
Defined.

(* ===================================================================== *)
(** * Properties of the chat route and of the chat page *)
(* ===================================================================== *)

Section ChatProperties.
Import Js Eff.

Variable API_URL : string.
Variable ML_SERVICE_URL : string.

Lemma trim_start_whitespace_only (s : string) :
  whitespace_only s = true -> trim_start s = "".
Proof.
  induction s as [| c rest IH]; simpl; [reflexivity |].
  intros H. apply andb_true_iff in H as [Hc Hrest].
  rewrite Hc. auto.
Qed.

Lemma trim_whitespace_only (s : string) :
  whitespace_only s = true -> trim s = "".
Proof.
  intros H. unfold trim. rewrite (trim_start_whitespace_only s H). reflexivity.
Qed.

(** C10: when the input is empty or white space only, or while a request
    is in flight, [handleSend] does nothing: the state is returned as it
    was, no request is made, nothing is shown; the send button is disabled
    in exactly these cases of the guard. *)
Theorem handleSend_guard (st : ChatPage.ChatState) (net : ChatPage.FetchResult) :
  whitespace_only (ChatPage.input st) = true \/ ChatPage.isLoading st = true ->
  ChatPage.handleSend API_URL st net = (st, ChatPage.no_effects)
  /\ ChatPage.requests (snd (ChatPage.handleSend API_URL st net)) = []
  /\ ChatPage.messages (fst (ChatPage.handleSend API_URL st net))
     = ChatPage.messages st
  /\ ChatPage.send_disabled st = true.
Proof.
  intros H.
  assert (Hguard : negb (truthy (VStr (trim (ChatPage.input st))))
                   || ChatPage.isLoading st = true).
  { destruct H as [Hws | Hload].
    - rewrite (trim_whitespace_only _ Hws). reflexivity.
    - rewrite Hload. apply orb_true_r. }
  assert (Hsend : ChatPage.handleSend API_URL st net = (st, ChatPage.no_effects)).
  { unfold ChatPage.handleSend. rewrite Hguard. reflexivity. }
  rewrite Hsend. repeat split.
  unfold ChatPage.send_disabled. rewrite orb_comm. exact Hguard.
Qed.

Lemma prop_defined (v : JsVal) (p q : string) (x : JsVal) :
  prop v p = Some x -> exists y, prop v q = Some y.
Proof. destruct v; simpl; intros H; try discriminate; eauto. Qed.

Lemma settle_done (timeout : Z) (d : Downstream) (a : AxiosResponse) :
  settle timeout d = Done a ->
  exists latency, d = Replies latency (ax_status a) (ax_data a).
Proof.
  destruct d as [latency status data | reason |]; simpl.
  - destruct ((0 <? timeout)%Z && (timeout <? latency)%Z); [discriminate |].
    destruct ((200 <=? status)%Z && (status <? 300)%Z); [| discriminate].
    intros [= <-]. eauto.
  - discriminate.
  - destruct (0 <? timeout)%Z; discriminate.
Qed.

Lemma settle_throws (timeout : Z) (d : Downstream) (e : JsError) :
  settle timeout d = Throws e ->
  response e = None
  \/ exists status data,
       response e = Some (status, data)
       /\ ((200 <=? status)%Z && (status <? 300)%Z) = false.
Proof.
  destruct d as [latency status data | reason |]; simpl.
  - destruct ((0 <? timeout)%Z && (timeout <? latency)%Z);
      [intros [= <-]; left; reflexivity |].
    destruct ((200 <=? status)%Z && (status <? 300)%Z) eqn:Hst;
      [discriminate |].
    intros [= <-]. right. eauto.
  - intros [= <-]. left. reflexivity.
  - destruct (0 <? timeout)%Z; [| discriminate].
    intros [= <-]. left. reflexivity.
Qed.

(** The status chosen by the [catch] block of the chat route is never 200
    for an error raised by the HTTP client. *)
Lemma chat_catch_status (e : JsError) (resp : Gateway.HttpResponse) :
  (response e = None
   \/ exists status data,
        response e = Some (status, data)
        /\ ((200 <=? status)%Z && (status <? 300)%Z) = false) ->
  outcome_of (Gateway.chat_catch ML_SERVICE_URL e) = Done resp ->
  Gateway.status resp <> 200%Z.
Proof.
  intros He [= <-]. simpl.
  destruct He as [-> | (status & data & -> & Hst)]; simpl; [lia |].
  unfold js_or. simpl. destruct (status =? 0)%Z eqn:Hz; simpl; [lia |].
  intros ->. discriminate Hst.
Qed.

(** C3, as the code has it: whenever the chat route answers with status
    200, the ML service answered, and the response is [success: true] with
    the service's [response] relayed as it is and a [shouldTransition] that
    is [false] when the service omits the flag or sends a falsy one, and
    the service's own value otherwise; so the flag is a boolean whenever
    the service's flag is a boolean or falsy. *)
Theorem chat_success_relays (req_body : JsVal) (d : Downstream)
    (resp : Gateway.HttpResponse) :
  outcome_of (Gateway.chat ML_SERVICE_URL req_body d) = Done resp ->
  Gateway.status resp = 200%Z ->
  exists latency status data,
    d = Replies latency status data
    /\ Gateway.body resp =
         VObj [("success", VBool true);
               ("response", opt_prop data "response");
               ("shouldTransition",
                js_or (opt_prop data "shouldTransition") (VBool false))]
    /\ (opt_prop data "shouldTransition" = VUndefined ->
        opt_prop (Gateway.body resp) "shouldTransition" = VBool false)
    /\ (truthy (opt_prop data "shouldTransition") = false ->
        opt_prop (Gateway.body resp) "shouldTransition" = VBool false)
    /\ (truthy (opt_prop data "shouldTransition") = true ->
        opt_prop (Gateway.body resp) "shouldTransition"
        = opt_prop data "shouldTransition")
    /\ (is_boolean (opt_prop data "shouldTransition") = true ->
        is_boolean (opt_prop (Gateway.body resp) "shouldTransition") = true).
Proof.
  intros Hout Hst. unfold Gateway.chat, destructure, get in Hout.
  destruct (prop req_body "message") as [m |] eqn:Hm;
    [| simpl in Hout; injection Hout as <-; discriminate Hst].
  destruct (prop req_body "history") as [h |] eqn:Hh;
    [| simpl in Hout; injection Hout as <-; discriminate Hst].
  destruct m as [| | b | n | s | items | fields]; simpl in Hout;
    try (injection Hout as <-; discriminate Hst).
  destruct (String.eqb s ""); simpl in Hout;
    [injection Hout as <-; discriminate Hst |].
  destruct (settle 30000 d) as [a | e |] eqn:Hs; simpl in Hout.
  - destruct (settle_done _ _ _ Hs) as [latency ->].
    exists latency, (ax_status a), (ax_data a). split; [reflexivity |].
    unfold opt_prop.
    destruct (prop (ax_data a) "success") as [x |] eqn:Hx.
    + destruct (prop_defined _ _ "response" _ Hx) as [reply Hreply].
      destruct (prop_defined _ _ "shouldTransition" _ Hx) as [flag Hflag].
      rewrite Hreply, Hflag in *. simpl in Hout. injection Hout as <-.
      simpl. split; [reflexivity |]. unfold js_or.
      repeat split.
      * intros ->. reflexivity.
      * intros ->. reflexivity.
      * intros ->. reflexivity.
      * destruct flag; try discriminate. intros _. destruct b; reflexivity.
    + simpl in Hout. injection Hout as <-. discriminate Hst.
  - exfalso. apply (chat_catch_status e resp (settle_throws _ _ _ Hs)); [| exact Hst].
    exact Hout.
  - discriminate Hout.
Qed.

(** The chat route answers every request, however the ML service behaves:
    the 30 second timeout turns silence into a 500 answer. *)
Lemma chat_always_answers (req_body : JsVal) (d : Downstream) :
  exists resp,
    outcome_of (Gateway.chat ML_SERVICE_URL req_body d) = Done resp.
Proof.
  unfold Gateway.chat, destructure, get.
  destruct (prop req_body "message") as [m |]; [| simpl; eauto].
  destruct (prop req_body "history") as [h |]; [| simpl; eauto].
  destruct m as [| | b | n | s | items | fields]; simpl; eauto.
  destruct (String.eqb s ""); simpl; eauto.
  destruct (settle 30000 d) as [a | e |] eqn:Hs; simpl; eauto.
  - destruct (prop (ax_data a) "success") as [x |] eqn:Hx; simpl; eauto.
    destruct (prop_defined _ _ "response" _ Hx) as [reply ->].
    destruct (prop_defined _ _ "shouldTransition" _ Hx) as [flag ->].
    simpl. eauto.
  - destruct d as [latency status data | reason |]; simpl in Hs.
    + repeat match type of Hs with
             | context [if ?c then _ else _] => destruct c
             end; discriminate Hs.
    + discriminate Hs.
    + discriminate Hs.
Qed.

Lemma js_or_truthy_r (a b : JsVal) :
  truthy b = true -> truthy (js_or a b) = true.
Proof. intros Hb. unfold js_or. destruct (truthy a) eqn:Ha; assumption. Qed.

Lemma truthy_json_wire (v : JsVal) : truthy (json_wire v) = truthy v.
Proof. destruct v; reflexivity. Qed.

Lemma relayed_error_truthy (e : JsError) :
  truthy (json_wire (Turn.relayed_error e)) = true.
Proof.
  rewrite truthy_json_wire. apply js_or_truthy_r. reflexivity.
Qed.

Lemma downstream_fails_throws (d : Downstream) :
  Turn.downstream_fails d ->
  exists e, settle 30000 d = Throws e
    /\ (response e = None
        \/ exists status data,
             response e = Some (status, data) /\ (400 <= status <= 599)%Z).
Proof.
  destruct d as [latency status data | reason |]; simpl.
  - intros H. destruct (30000 <? latency)%Z eqn:Hl.
    + eexists. split; [reflexivity |]. left. reflexivity.
    + destruct H as [H | H]; [lia |].
      replace ((200 <=? status)%Z && (status <? 300)%Z) with false by lia.
      eexists. split; [reflexivity |]. right. eauto.
  - intros _. eexists. split; [reflexivity |]. left. reflexivity.
  - intros _. eexists. split; [reflexivity |]. left. reflexivity.
Qed.

(** The status the [catch] block of the chat route answers with. *)
Lemma chat_forwarded_failure (req_body h : JsVal) (s : string)
    (d : Downstream) (e : JsError) :
  prop req_body "message" = Some (VStr s) -> s <> "" ->
  prop req_body "history" = Some h ->
  settle 30000 d = Throws e ->
  exists code details,
    outcome_of (Gateway.chat ML_SERVICE_URL req_body d) =
      Done (Gateway.mkResponse code
              (if Gateway.sends_body code
               then VObj [("success", VBool false);
                          ("error", Turn.relayed_error e);
                          ("details", details);
                          ("mlServiceUrl", VStr ML_SERVICE_URL)]
               else VUndefined))
    /\ (response e = None -> code = 500%Z)
    /\ (forall status data, response e = Some (status, data) ->
        status <> 0%Z -> code = status).
Proof.
  intros Hm Hs Hh Hd. unfold Gateway.chat, destructure, get.
  rewrite Hm, Hh. simpl.
  destruct (String.eqb_spec s "") as [-> | _]; [congruence |]. simpl.
  rewrite Hd. simpl. eexists _, _. split; [reflexivity |]. split.
  - intros ->. reflexivity.
  - intros status data ->. simpl. unfold js_or. simpl.
    intros Hz. destruct (Z.eqb_spec status 0); [congruence | reflexivity].
Qed.

(** The chat page reading an error answer of the gateway. *)
Lemma send_try_error_answer (st : ChatPage.ChatState) (code : Z)
    (err details : JsVal) :
  ChatPage.ok code = false -> truthy err = true ->
  ChatPage.send_try API_URL st
    (ChatPage.Responds code
       (inl (VObj (omit_undefined
                     [("success", VBool false); ("error", err);
                      ("details", details);
                      ("mlServiceUrl", VStr ML_SERVICE_URL)]))))
  = ([ChatPage.chat_request API_URL st],
     Throws (mkError (to_string err) None)).
Proof.
  intros Hok Herr.
  assert (Hkeep :
    omit_undefined [("success", VBool false); ("error", err);
                    ("details", details);
                    ("mlServiceUrl", VStr ML_SERVICE_URL)]
    = ("success", VBool false) :: ("error", err) ::
      omit_undefined [("details", details);
                      ("mlServiceUrl", VStr ML_SERVICE_URL)]).
  { destruct err; try reflexivity. discriminate Herr. }
  rewrite Hkeep. unfold ChatPage.send_try, ChatPage.fetch. simpl.
  rewrite Hok. simpl.
  unfold ChatPage.throw_new_Error, js_or. rewrite Herr. simpl.
  rewrite Herr. reflexivity.
Qed.

Lemma send_enabled (st : ChatPage.ChatState) :
  ChatPage.send_disabled st = false ->
  ChatPage.isLoading st = false
  /\ truthy (VStr (trim (ChatPage.input st))) = true
  /\ ChatPage.input st <> "".
Proof.
  unfold ChatPage.send_disabled. intros H.
  apply orb_false_iff in H as [Hl Ht]. apply negb_false_iff in Ht.
  repeat split; [assumption | assumption |].
  intros Hempty. rewrite Hempty in Ht. discriminate Ht.
Qed.

(** C2, as the code has it: when the user sends a message and the
    gateway's call to the ML service fails (connection failure, timeout or
    HTTP error status), the page shows the error text relayed by the
    gateway as it is in a toast and, wrapped in the sentence "Sorry, I
    encountered an error: ... Please make sure all services are running.",
    as the assistant's reply; for a connection failure or a timeout that
    text is the HTTP client's own message, and for an error answer it is
    the [error] string of the ML service's body when there is one. *)
Theorem failed_turn_shows_error (st : ChatPage.ChatState) (d : Downstream) :
  ChatPage.send_disabled st = false ->
  Turn.downstream_fails d ->
  exists e : JsError,
    settle 30000 d = Throws e
    /\ Turn.turn API_URL ML_SERVICE_URL st d =
         (ChatPage.mkChat
            (ChatPage.messages st ++
             [ChatPage.mkMessage ChatPage.user (VStr (ChatPage.input st));
              ChatPage.mkMessage ChatPage.assistant
                (VStr (ChatPage.apology
                         (to_string (json_wire (Turn.relayed_error e)))))])
            "" false,
          ChatPage.mkEffects [ChatPage.chat_request API_URL st]
            [to_string (json_wire (Turn.relayed_error e))] [])
    /\ (response e = None -> message e <> "" ->
        to_string (json_wire (Turn.relayed_error e)) = message e)
    /\ (forall status data s,
          response e = Some (status, data) ->
          opt_prop data "error" = VStr s -> s <> "" ->
          to_string (json_wire (Turn.relayed_error e)) = s).
Proof.
  intros Hsend Hfail.
  destruct (send_enabled st Hsend) as (Hload & Htrim & Hinput).
  destruct (downstream_fails_throws d Hfail) as (e & Hsettle & Hresp).
  exists e. split; [exact Hsettle |]. split; [| split].
  - unfold Turn.turn, ChatPage.handleSend. rewrite Htrim, Hload. simpl.
    unfold Turn.via_gateway.
    destruct (chat_forwarded_failure
                 (json_wire (call_body (ChatPage.chat_request API_URL st)))
                 (opt_prop
                    (json_wire (call_body (ChatPage.chat_request API_URL st)))
                    "history")
                 (ChatPage.input st) d e)
      as (code & details & Hchat & Hnone & Hsome);
      [reflexivity | exact Hinput | reflexivity | exact Hsettle |].
    destruct (Gateway.chat ML_SERVICE_URL _ d) as [calls o].
    simpl in Hchat. subst o.
    assert (Hok : ChatPage.ok code = false
                  /\ Gateway.sends_body code = true).
    { destruct Hresp as [Hr | (status & data & Hr & Hrange)].
      - rewrite (Hnone Hr). split; reflexivity.
      - rewrite (Hsome status data Hr) by lia.
        unfold ChatPage.ok, Gateway.sends_body. lia. }
    destruct Hok as [Hok Hbody]. rewrite Hbody. unfold Turn.received.
    cbn [Gateway.status Gateway.body json_wire map fst snd].
    rewrite (send_try_error_answer st code _ _ Hok (relayed_error_truthy e)).
    rewrite <- app_assoc. reflexivity.
  - unfold Turn.relayed_error. intros -> Hmsg. unfold js_or. simpl.
    destruct (String.eqb_spec (message e) "") as [Heq | _]; [congruence |].
    simpl. destruct (String.eqb_spec (message e) ""); [congruence |].
    reflexivity.
  - unfold Turn.relayed_error. intros status data s -> -> Hs.
    unfold js_or. simpl.
    destruct (String.eqb_spec s "") as [Heq | _]; [congruence |].
    simpl. destruct (String.eqb_spec s ""); [congruence |].
    reflexivity.
Qed.

End ChatProperties.

(** C3, the claim as written fails: the ML service answers 200 with
    [shouldTransition: 1]; the turn succeeds and the gateway's response
    carries the number [1], not a boolean. *)
Lemma chat_flag_not_boolean :
  ~ (forall resp,
       Eff.outcome_of
         (Gateway.chat "http://localhost:5001"
            (Js.VObj [("message", Js.VStr "Hello"); ("history", Js.VArr [])])
            (Eff.Replies 10 200
               (Js.VObj [("response", Js.VStr "Your appointment is booked.");
                         ("shouldTransition", Js.VNum 1)])))
       = Eff.Done resp ->
       Gateway.status resp = 200%Z ->
       Gateway.reply_and_boolean_flag resp).
Proof.
  intros H.
  destruct (H _ eq_refl eq_refl) as [_ Hflag]. discriminate Hflag.
Qed.

Lemma chat_success_relays_witness :
  exists latency status data,
    Eff.Replies 10 200 (Js.VObj [("response", Js.VStr "Hello Sarah.")])
    = Eff.Replies latency status data
    /\ Js.opt_prop
         (Js.VObj [("success", Js.VBool true);
                   ("response", Js.VStr "Hello Sarah.");
                   ("shouldTransition", Js.VBool false)])
         "shouldTransition" = Js.VBool false.
Proof.
  destruct (chat_success_relays "http://localhost:5001"
              (Js.VObj [("message", Js.VStr "Sarah Johnson")])
              (Eff.Replies 10 200 (Js.VObj [("response", Js.VStr "Hello Sarah.")]))
              (Gateway.mkResponse 200
                 (Js.VObj [("success", Js.VBool true);
                           ("response", Js.VStr "Hello Sarah.");
                           ("shouldTransition", Js.VBool false)]))
              eq_refl eq_refl)
    as (latency & status & data & Hd & _ & Homitted & _).
  exists latency, status, data. split; [exact Hd |].
  apply Homitted. injection Hd as _ _ <-. reflexivity.
Defined.

(** C2, the claim as written fails: the ML service is down, and the socket
    layer's message, error code included, is what the toast shows and what
    the assistant's reply quotes. *)
Lemma raw_error_reaches_user :
  ~ Turn.hides_raw_errors "http://localhost:3001" "http://localhost:5001"
      ChatPage.waiting_to_send (Eff.Refuses "connect ECONNREFUSED 127.0.0.1:5001").
Proof.
  intros H.
  specialize (H "connect ECONNREFUSED 127.0.0.1:5001"
                "connect ECONNREFUSED 127.0.0.1:5001").
  assert (Hfalse : true = false); [| discriminate Hfalse].
  apply H.
  - left. reflexivity.
  - discriminate.
  - left. reflexivity.
Qed.

Lemma failed_turn_shows_error_witness :
  exists e : Eff.JsError,
    Eff.settle 30000 (Eff.Refuses "connect ECONNREFUSED 127.0.0.1:5001")
    = Eff.Throws e
    /\ ChatPage.toasts
         (snd (Turn.turn "http://localhost:3001" "http://localhost:5001"
                 ChatPage.waiting_to_send
                 (Eff.Refuses "connect ECONNREFUSED 127.0.0.1:5001")))
       = [Js.to_string (Js.json_wire (Turn.relayed_error e))].
Proof.
  destruct (failed_turn_shows_error "http://localhost:3001"
              "http://localhost:5001" ChatPage.waiting_to_send
              (Eff.Refuses "connect ECONNREFUSED 127.0.0.1:5001")
              eq_refl I)
    as (e & Hsettle & Hturn & _).
  exists e. split; [exact Hsettle |]. rewrite Hturn. reflexivity.
Defined.

Lemma handleSend_guard_witness :
  ChatPage.handleSend "http://localhost:3001"
    (ChatPage.mkChat (ChatPage.messages ChatPage.initial) "   " false)
    ChatPage.FetchPending
  = (ChatPage.mkChat (ChatPage.messages ChatPage.initial) "   " false,
     ChatPage.no_effects).
Proof.
  apply (handleSend_guard "http://localhost:3001"
           (ChatPage.mkChat (ChatPage.messages ChatPage.initial) "   " false)
           ChatPage.FetchPending).
  left. reflexivity.
Defined.

(* ===================================================================== *)
(** * Properties of the booking core *)
(* ===================================================================== *)

Section CoreProperties.
Import Core.

Context {L : Language}.

#[local] Arguments tryBook : simpl never.

Ltac break_match :=
  match goal with
  | |- context [match ?x with _ => _ end] => destruct x eqn:?
  | |- context [if ?x then _ else _] => destruct x eqn:?
  end.

Lemma step_terminal (cal : Calendar) (s : ConversationSession) (d : Delivery) :
  terminal (state s) = true -> step cal s d = (cal, s, SessionClosed).
Proof. intros H. unfold step. rewrite H. reflexivity. Qed.

Lemma step_sessionId (cal : Calendar) (s : ConversationSession) (d : Delivery) :
  sessionId (snd (fst (step cal s d))) = sessionId s.
Proof.
  unfold step, extract. simpl. repeat (break_match; simpl); reflexivity.
Qed.

Lemma new_session_ref_iff_booked (sid : string) (now : Timestamp) :
  ref_iff_booked (new_session sid now).
Proof.
  unfold ref_iff_booked. simpl. split.
  - intros [r Hr]. discriminate Hr.
  - discriminate.
Qed.

Lemma step_ref_iff_booked (cal : Calendar) (s : ConversationSession)
    (d : Delivery) :
  ref_iff_booked s -> ref_iff_booked (snd (fst (step cal s d))).
Proof.
  unfold ref_iff_booked. intros [Hto Hfrom].
  assert (Hnone : state s <> Booked -> bookingRef s = None).
  { intros Hne. destruct (bookingRef s) eqn:Hr; [| reflexivity].
    exfalso. apply Hne, Hto. eauto. }
  unfold step, extract. simpl.
  destruct (state s) eqn:Hst; simpl;
    try (split; assumption);
    repeat (break_match; simpl);
    try (rewrite Hnone by discriminate);
    split; intros H; try discriminate H;
    try (match goal with H : is_Some None |- _ => destruct H; discriminate end);
    try congruence; eauto.
Qed.

Lemma bookings_for_app (key : string) (c1 c2 : Calendar) :
  bookings_for key (c1 ++ c2) = bookings_for key c1 ++ bookings_for key c2.
Proof. unfold bookings_for. apply filter_app. Qed.

Lemma createEvent_other_key (cal : Calendar) (doctor : string)
    (start : Timestamp) (patient key fresh other : string) :
  other <> key ->
  bookings_for other (fst (createEvent cal doctor start patient key fresh))
  = bookings_for other cal.
Proof.
  intros Hne. unfold createEvent.
  destruct (bookings_for key cal) as [| ev rest]; simpl; [| reflexivity].
  rewrite bookings_for_app. unfold bookings_for at 2. cbn.
  destruct (decide (key = other)) as [Heq | _]; [congruence |].
  apply app_nil_r.
Qed.

Lemma createEvent_at_most_one (cal : Calendar) (doctor : string)
    (start : Timestamp) (patient key fresh sid : string) :
  (length (bookings_for sid cal) <= 1)%nat ->
  (length (bookings_for sid
             (fst (createEvent cal doctor start patient key fresh))) <= 1)%nat.
Proof.
  intros Hle. destruct (decide (sid = key)) as [-> | Hne].
  - unfold createEvent.
    destruct (bookings_for key cal) as [| ev rest] eqn:Hb; simpl.
    + rewrite bookings_for_app, Hb. unfold bookings_for. cbn.
      destruct (decide (key = key)); simpl; lia.
    + rewrite Hb. exact Hle.
  - rewrite createEvent_other_key by exact Hne. exact Hle.
Qed.

(** What a retried create leaves in the calendar, seen from one key. *)
Lemma create_with_retry_bookings (attempts : nat) (fs : list CallFate)
    (cal : Calendar) (doctor : string) (start : Timestamp)
    (patient key fresh sid : string) :
  let cal' := fst (create_with_retry attempts fs cal doctor start
                     patient key fresh) in
  ((length (bookings_for sid cal) <= 1)%nat ->
   (length (bookings_for sid cal') <= 1)%nat)
  /\ (sid <> key -> bookings_for sid cal' = bookings_for sid cal).
Proof.
  revert fs cal. induction attempts as [| n IH]; intros fs cal; simpl.
  - split; auto.
  - destruct fs as [| [| |] rest].
    + destruct (createEvent cal doctor start patient key fresh) as [c r] eqn:Hc.
      simpl. replace c with (fst (createEvent cal doctor start patient key fresh))
        by (rewrite Hc; reflexivity).
      split; [apply createEvent_at_most_one | apply createEvent_other_key].
    + destruct (createEvent cal doctor start patient key fresh) as [c r] eqn:Hc.
      simpl. replace c with (fst (createEvent cal doctor start patient key fresh))
        by (rewrite Hc; reflexivity).
      split; [apply createEvent_at_most_one | apply createEvent_other_key].
    + destruct (createEvent cal doctor start patient key fresh) as [c r] eqn:Hc.
      assert (Hfst : c = fst (createEvent cal doctor start patient key fresh))
        by (rewrite Hc; reflexivity).
      destruct (IH rest c) as [IH1 IH2]. split.
      * intros Hle. apply IH1. rewrite Hfst.
        apply createEvent_at_most_one, Hle.
      * intros Hne. rewrite (IH2 Hne), Hfst.
        apply createEvent_other_key, Hne.
    + apply IH.
Qed.

Lemma tryBook_bookings (cal : Calendar) (key doctor : string)
    (start : Timestamp) (patient : string) (fs : list CallFate)
    (fresh sid : string) :
  let cal' := fst (tryBook cal key doctor start patient fs fresh) in
  ((length (bookings_for sid cal) <= 1)%nat ->
   (length (bookings_for sid cal') <= 1)%nat)
  /\ (sid <> key -> bookings_for sid cal' = bookings_for sid cal).
Proof.
  unfold tryBook.
  destruct (query_with_retry max_attempts fs) as [[|] rest];
    [| cbn [fst]; split; auto].
  destruct (queryConflicts cal doctor start); [| cbn [fst]; split; auto].
  pose proof (create_with_retry_bookings max_attempts rest cal doctor start
                patient key fresh sid) as H.
  destruct (create_with_retry max_attempts rest cal doctor start patient
              key fresh) as [c [r |]]; exact H.
Qed.

(** A step writes to the calendar only through [tryBook] under the
    session's own key. *)
Lemma step_bookings (cal : Calendar) (s : ConversationSession) (d : Delivery)
    (sid : string) :
  let cal' := fst (fst (step cal s d)) in
  ((length (bookings_for sid cal) <= 1)%nat ->
   (length (bookings_for sid cal') <= 1)%nat)
  /\ (sid <> sessionId s -> bookings_for sid cal' = bookings_for sid cal).
Proof.
  unfold step, extract. simpl.
  destruct (terminal (state s)); simpl; [split; auto |].
  destruct (what d) as [text |]; simpl; [| split; auto].
  destruct (cancel_intent text); simpl; [split; auto |].
  destruct (state s); simpl; try (split; auto; fail);
    repeat (match goal with
            | |- context [match ?x with _ => _ end] =>
                lazymatch x with
                | tryBook _ _ _ _ _ _ _ => fail
                | _ => destruct x eqn:?
                end
            end; simpl);
    try (split; auto; fail).
  all: match goal with
       | |- context [tryBook ?c ?k ?doc ?t ?p ?f ?r] =>
           pose proof (tryBook_bookings c k doc t p f r sid) as H;
           destruct (tryBook c k doc t p f r) as [c' [ref | |]]; exact H
       end.
Qed.

Lemma start_ok (cal : Calendar) : sys_ok (start cal).
Proof. intros k s H. simpl in H. rewrite lookup_empty in H. discriminate H. Qed.

Lemma session_of_ok (sys : System) (sid : string) (d : Delivery) :
  sys_ok sys ->
  sessionId (session_of sys sid d) = sid
  /\ ref_iff_booked (session_of sys sid d).
Proof.
  intros Hok. unfold session_of.
  destruct (sessions sys !! sid) as [s |] eqn:Hs.
  - apply (Hok sid s Hs).
  - split; [reflexivity | apply new_session_ref_iff_booked].
Qed.

Lemma deliver_sessions (sys : System) (sid : string) (d : Delivery) :
  sessions (fst (deliver sys sid d))
  = <[sid := snd (fst (step (calendar sys) (session_of sys sid d) d))]>
      (sessions sys).
Proof.
  unfold deliver.
  destruct (step (calendar sys) (session_of sys sid d) d) as [[cal' s'] p].
  reflexivity.
Qed.

Lemma deliver_calendar (sys : System) (sid : string) (d : Delivery) :
  calendar (fst (deliver sys sid d))
  = fst (fst (step (calendar sys) (session_of sys sid d) d)).
Proof.
  unfold deliver.
  destruct (step (calendar sys) (session_of sys sid d) d) as [[cal' s'] p].
  reflexivity.
Qed.

Lemma deliver_ok (sys : System) (sid : string) (d : Delivery) :
  sys_ok sys -> sys_ok (fst (deliver sys sid d)).
Proof.
  intros Hok k s. rewrite deliver_sessions.
  destruct (session_of_ok sys sid d Hok) as [Hid Hinv].
  destruct (decide (sid = k)) as [<- | Hne].
  - rewrite lookup_insert_eq. intros [= <-]. split.
    + rewrite step_sessionId. exact Hid.
    + apply step_ref_iff_booked, Hinv.
  - rewrite lookup_insert_ne by exact Hne. apply Hok.
Qed.

Lemma run_app (sys : System) (pre post : list (string * Delivery)) :
  run sys (pre ++ post) = run (run sys pre) post.
Proof.
  revert sys. induction pre as [| [sid d] pre IH]; intros sys; simpl;
    [reflexivity | apply IH].
Qed.

Lemma run_ok (sys : System) (inputs : list (string * Delivery)) :
  sys_ok sys -> sys_ok (run sys inputs).
Proof.
  revert sys. induction inputs as [| [sid d] rest IH]; intros sys Hok; simpl;
    [exact Hok | apply IH, deliver_ok, Hok].
Qed.

Lemma run_at_most_one (sys : System) (inputs : list (string * Delivery))
    (sid : string) :
  (length (bookings_for sid (calendar sys)) <= 1)%nat ->
  (length (bookings_for sid (calendar (run sys inputs))) <= 1)%nat.
Proof.
  revert sys. induction inputs as [| [k d] rest IH]; intros sys Hle; simpl;
    [exact Hle |].
  apply IH. rewrite deliver_calendar. apply step_bookings, Hle.
Qed.

(** Once a reference is stored, no delivery to any session changes the
    session or its bookings. *)
Lemma booked_frozen_step (sys : System) (sid k : string) (d : Delivery)
    (s : ConversationSession) :
  sys_ok sys ->
  sessions sys !! sid = Some s -> is_Some (bookingRef s) ->
  sessions (fst (deliver sys k d)) !! sid = Some s
  /\ bookings_for sid (calendar (fst (deliver sys k d)))
     = bookings_for sid (calendar sys).
Proof.
  intros Hok Hs Href. rewrite deliver_sessions, deliver_calendar.
  destruct (decide (k = sid)) as [-> | Hne].
  - assert (Hsess : session_of sys sid d = s)
      by (unfold session_of; rewrite Hs; reflexivity).
    rewrite Hsess.
    assert (Hterm : terminal (state s) = true).
    { destruct (Hok sid s Hs) as [_ [Hto _]]. rewrite (Hto Href). reflexivity. }
    rewrite (step_terminal _ _ _ Hterm). simpl.
    rewrite lookup_insert_eq. split; reflexivity.
  - rewrite lookup_insert_ne by exact Hne. split; [exact Hs |].
    apply step_bookings.
    destruct (session_of_ok sys k d Hok) as [-> _]. congruence.
Qed.

Lemma booked_frozen (sys : System) (sid : string) (s : ConversationSession)
    (post : list (string * Delivery)) :
  sys_ok sys ->
  sessions sys !! sid = Some s -> is_Some (bookingRef s) ->
  sessions (run sys post) !! sid = Some s
  /\ bookings_for sid (calendar (run sys post))
     = bookings_for sid (calendar sys).
Proof.
  revert sys. induction post as [| [k d] rest IH]; intros sys Hok Hs Href;
    simpl; [split; [exact Hs | reflexivity] |].
  destruct (booked_frozen_step sys sid k d s Hok Hs Href) as [Hs' Hcal'].
  destruct (IH _ (deliver_ok sys k d Hok) Hs' Href) as [Hs'' Hcal''].
  split; [exact Hs'' | congruence].
Qed.

Lemma step_confirmed (cal : Calendar) (s : ConversationSession)
    (d : Delivery) (ref : string) :
  snd (step cal s d) = Confirmed ref ->
  bookingRef (snd (fst (step cal s d))) = Some ref.
Proof.
  unfold step, extract. simpl.
  destruct (terminal (state s)); simpl; [discriminate |].
  destruct (what d) as [text |]; simpl; [| discriminate].
  destruct (cancel_intent text); simpl; [discriminate |].
  destruct (state s); simpl;
    repeat (match goal with
            | |- context [match ?x with _ => _ end] => destruct x eqn:?
            end; simpl);
    try discriminate.
  intros [= ->]. reflexivity.
Qed.

Lemma deliver_prompt (sys : System) (sid : string) (d : Delivery) :
  fst (snd (deliver sys sid d))
  = snd (step (calendar sys) (session_of sys sid d) d).
Proof.
  unfold deliver.
  destruct (step (calendar sys) (session_of sys sid d) d) as [[cal' s'] p].
  reflexivity.
Qed.

(** After the reference is stored the session is never confirmed again. *)
Lemma no_confirmation_after_booking (sys : System) (sid : string)
    (s : ConversationSession) (post : list (string * Delivery)) :
  sys_ok sys ->
  sessions sys !! sid = Some s -> is_Some (bookingRef s) ->
  confirmations sid (transcript sys post) = 0%nat.
Proof.
  revert sys. induction post as [| [k d] rest IH]; intros sys Hok Hs Href;
    simpl; [reflexivity |].
  destruct (booked_frozen_step sys sid k d s Hok Hs Href) as [Hs' _].
  rewrite (IH _ (deliver_ok sys k d Hok) Hs' Href).
  unfold is_confirmation. simpl.
  destruct (String.eqb_spec k sid) as [-> | Hne]; simpl; [| reflexivity].
  rewrite deliver_prompt.
  assert (Hsess : session_of sys sid d = s)
    by (unfold session_of; rewrite Hs; reflexivity).
  assert (Hterm : terminal (state s) = true).
  { destruct (Hok sid s Hs) as [_ [Hto _]]. rewrite (Hto Href). reflexivity. }
  rewrite Hsess, (step_terminal _ _ _ Hterm). reflexivity.
Qed.

Lemma confirmed_at_most_once (sys : System) (sid : string)
    (inputs : list (string * Delivery)) :
  sys_ok sys -> (confirmations sid (transcript sys inputs) <= 1)%nat.
Proof.
  revert sys. induction inputs as [| [k d] rest IH]; intros sys Hok; simpl;
    [lia |].
  destruct (is_confirmation sid (k, fst (snd (deliver sys k d)))) eqn:Hc.
  - unfold is_confirmation in Hc. simpl in Hc.
    apply andb_true_iff in Hc as [Hk Hp].
    apply String.eqb_eq in Hk. subst k.
    rewrite deliver_prompt in Hp.
    destruct (snd (step (calendar sys) (session_of sys sid d) d))
      as [| | | | | | ref | | | | |] eqn:Hstep; try discriminate Hp.
    pose proof (step_confirmed _ _ _ _ Hstep) as Href.
    rewrite (no_confirmation_after_booking _ sid
               (snd (fst (step (calendar sys) (session_of sys sid d) d)))
               rest (deliver_ok sys sid d Hok)); [lia | |].
    + rewrite deliver_sessions. apply lookup_insert_eq.
    + rewrite Href. eauto.
  - simpl. apply IH, deliver_ok, Hok.
Qed.

(** C1: whatever is delivered, to whichever sessions, with whatever losses
    and retries of the external calls, a session is told at most once that
    its booking succeeded and the calendar never holds two bookings made
    for it; and once the session stores a booking reference, nothing
    delivered afterwards (a repeated confirmation included) changes the
    stored reference or adds a booking for it. *)
Theorem at_most_one_booking_per_session (cal0 : Calendar)
    (inputs : list (string * Delivery)) (sid : string) :
  bookings_for sid cal0 = [] ->
  (confirmations sid (transcript (start cal0) inputs) <= 1)%nat
  /\ (length (bookings_for sid (calendar (run (start cal0) inputs))) <= 1)%nat
  /\ (forall pre post r,
        inputs = pre ++ post ->
        stored_ref (run (start cal0) pre) sid = Some r ->
        stored_ref (run (start cal0) inputs) sid = Some r
        /\ bookings_for sid (calendar (run (start cal0) inputs))
           = bookings_for sid (calendar (run (start cal0) pre))).
Proof.
  intros Hfresh. split; [| split].
  - apply confirmed_at_most_once, start_ok.
  - apply run_at_most_one. simpl. rewrite Hfresh. simpl. lia.
  - intros pre post r -> Hr. rewrite run_app.
    pose proof (run_ok _ pre (start_ok cal0)) as Hok.
    unfold stored_ref in Hr |- *.
    destruct (sessions (run (start cal0) pre) !! sid) as [s |] eqn:Hs;
      [| discriminate Hr].
    destruct (booked_frozen _ sid s post Hok Hs) as [Hs' Hcal'].
    { rewrite Hr. eauto. }
    rewrite Hs'. split; [exact Hr | exact Hcal'].
Qed.

(** C6: a session that has reached [Booked], [Cancelled] or [Failed] is
    left exactly as it is by every later delivery, utterance or internal
    error, to it or to any other session; its state never changes again. *)
Theorem terminal_state_never_changes (sys : System) (sid : string)
    (s : ConversationSession) (inputs : list (string * Delivery)) :
  sessions sys !! sid = Some s ->
  terminal (state s) = true ->
  sessions (run sys inputs) !! sid = Some s
  /\ state_in (run sys inputs) sid = Some (state s).
Proof.
  intros Hs Hterm.
  assert (H : sessions (run sys inputs) !! sid = Some s).
  { revert sys Hs. induction inputs as [| [k d] rest IH]; intros sys Hs; simpl;
      [exact Hs |].
    apply IH. rewrite deliver_sessions.
    destruct (decide (k = sid)) as [-> | Hne].
    - rewrite lookup_insert_eq. unfold session_of. rewrite Hs.
      rewrite (step_terminal _ _ _ Hterm). reflexivity.
    - rewrite lookup_insert_ne by exact Hne. exact Hs. }
  split; [exact H |]. unfold state_in. rewrite H. reflexivity.
Qed.

Ltac step_paths s :=
  unfold step, extract; simpl;
  destruct (state s) eqn:?Hst; simpl;
  repeat (match goal with
          | |- context [match ?x with _ => _ end] => destruct x eqn:?
          end; simpl).

(** A step moves a session by at most one state along the order. *)
Lemma step_order (cal : Calendar) (s : ConversationSession) (d : Delivery) :
  state (snd (fst (step cal s d))) = state s
  \/ state (snd (fst (step cal s d))) = next (state s)
  \/ state (snd (fst (step cal s d))) = Cancelled
  \/ state (snd (fst (step cal s d))) = Failed
  \/ (state s = AwaitingConfirmation
      /\ state (snd (fst (step cal s d))) = AwaitingDatetime).
Proof. step_paths s; rewrite ?Hst; auto 6. Qed.

(** Each field is written only while its own state is current. *)
Lemma step_writes_own_field (cal : Calendar) (s : ConversationSession)
    (d : Delivery) :
  (state s <> AwaitingName ->
   patientName (snd (fst (step cal s d))) = patientName s)
  /\ (state s <> AwaitingSymptoms ->
      symptomText (snd (fst (step cal s d))) = symptomText s
      /\ doctorId (snd (fst (step cal s d))) = doctorId s)
  /\ (state s <> AwaitingDatetime -> state s <> AwaitingConfirmation ->
      requestedTime (snd (fst (step cal s d))) = requestedTime s)
  /\ (state s <> AwaitingConfirmation ->
      confirmed (snd (fst (step cal s d))) = confirmed s
      /\ bookingRef (snd (fst (step cal s d))) = bookingRef s).
Proof.
  step_paths s; repeat split; intros; try reflexivity; congruence.
Qed.

(** A time is stored only from an utterance resolved in [AwaitingDatetime]. *)
Lemma step_time_source (cal : Calendar) (s : ConversationSession)
    (d : Delivery) (t : Timestamp) :
  requestedTime (snd (fst (step cal s d))) = Some t ->
  requestedTime s <> Some t ->
  state s = AwaitingDatetime
  /\ exists text, what d = Utterance text
                  /\ resolve text (now d) = Resolves t.
Proof.
  step_paths s; intros Ht Hne; try discriminate Ht; try congruence;
    split; [reflexivity | eexists; split; [reflexivity | congruence]].
Qed.

(** C7: a step never moves a session further than the next state of the
    collection order (it stays, advances by one, goes back from
    confirmation to the time, or ends in [Cancelled] or [Failed]), and it
    never writes a field of another stage, whatever the utterance mentions:
    the name is written only in [AwaitingName], the symptom text and the
    doctor only in [AwaitingSymptoms], the requested time only in
    [AwaitingDatetime] (and cleared only from [AwaitingConfirmation]), the
    confirmation and the booking reference only in [AwaitingConfirmation];
    a time is only ever stored from an utterance resolved while the session
    is [AwaitingDatetime]. *)
Theorem no_state_skipped (cal : Calendar) (s : ConversationSession)
    (d : Delivery) :
  (state (snd (fst (step cal s d))) = state s
   \/ state (snd (fst (step cal s d))) = next (state s)
   \/ state (snd (fst (step cal s d))) = Cancelled
   \/ state (snd (fst (step cal s d))) = Failed
   \/ (state s = AwaitingConfirmation
       /\ state (snd (fst (step cal s d))) = AwaitingDatetime))
  /\ (state s <> AwaitingName ->
      patientName (snd (fst (step cal s d))) = patientName s)
  /\ (state s <> AwaitingSymptoms ->
      symptomText (snd (fst (step cal s d))) = symptomText s
      /\ doctorId (snd (fst (step cal s d))) = doctorId s)
  /\ (state s <> AwaitingDatetime -> state s <> AwaitingConfirmation ->
      requestedTime (snd (fst (step cal s d))) = requestedTime s)
  /\ (state s <> AwaitingConfirmation ->
      confirmed (snd (fst (step cal s d))) = confirmed s
      /\ bookingRef (snd (fst (step cal s d))) = bookingRef s)
  /\ (state s = AwaitingName \/ state s = AwaitingSymptoms ->
      requestedTime (snd (fst (step cal s d))) = requestedTime s)
  /\ (forall t,
        requestedTime (snd (fst (step cal s d))) = Some t ->
        requestedTime s <> Some t ->
        state s = AwaitingDatetime
        /\ exists text, what d = Utterance text
                        /\ resolve text (now d) = Resolves t).
Proof.
  destruct (step_writes_own_field cal s d) as (Hname & Hsym & Htime & Hconf).
  split; [apply step_order |].
  split; [exact Hname |]. split; [exact Hsym |]. split; [exact Htime |].
  split; [exact Hconf |]. split.
  - intros [Hst | Hst]; apply Htime; rewrite Hst; discriminate.
  - intros t. apply step_time_source.
Qed.


End CoreProperties.

(** The worked example of the spec: the dialog reaches [Booked] once, with
    the time at 14:00 of the next day and one event in the calendar, also
    though the create call was repeated and the confirmation delivered
    twice. *)
Example booking_dialog_books_once :
  Core.sessions (Core.run (L := Core.examples) (Core.start []) Core.booking_dialog)
    !! "s1" = Some Core.booked_session
  /\ length (Core.calendar
               (Core.run (L := Core.examples) (Core.start []) Core.booking_dialog))
     = 1%nat
  /\ Core.confirmations "s1"
       (Core.transcript (L := Core.examples) (Core.start []) Core.booking_dialog)
     = 1%nat.
Proof. vm_compute. repeat split. Qed.

Lemma at_most_one_booking_per_session_witness :
  (Core.confirmations "s1"
     (Core.transcript (L := Core.examples) (Core.start []) Core.booking_dialog)
   <= 1)%nat.
Proof.
  apply (at_most_one_booking_per_session (L := Core.examples)
           [] Core.booking_dialog "s1").
  reflexivity.
Defined.

Lemma terminal_state_never_changes_witness :
  Core.state_in
    (Core.run (L := Core.examples)
       (Core.run (L := Core.examples) (Core.start []) Core.booking_dialog)
       [("s1", Core.said "cancel"); ("s1", Core.said "yes")])
    "s1" = Some Core.Booked.
Proof.
  apply (terminal_state_never_changes (L := Core.examples)
           (Core.run (L := Core.examples) (Core.start []) Core.booking_dialog)
           "s1" Core.booked_session
           [("s1", Core.said "cancel"); ("s1", Core.said "yes")]).
  - vm_compute. reflexivity.
  - reflexivity.
Defined.

Lemma no_state_skipped_witness :
  Core.symptomText
    (snd (fst (Core.step (L := Core.examples) []
                 (Core.new_session "s1" 1000) (Core.said "tomorrow at 2pm"))))
  = Core.symptomText (Core.new_session "s1" 1000)
  /\ Core.requestedTime
       (snd (fst (Core.step (L := Core.examples) []
                    (Core.new_session "s1" 1000)
                    (Core.said "tomorrow at 2pm"))))
     = Core.requestedTime (Core.new_session "s1" 1000).
Proof.
  destruct (no_state_skipped (L := Core.examples) []
              (Core.new_session "s1" 1000) (Core.said "tomorrow at 2pm"))
    as (_ & _ & Hsym & Htime & _).
  split.
  - apply Hsym. discriminate.
  - apply Htime; discriminate.
Defined.



(* ===================================================================== *)
(** * Further properties of the gateway routes *)
(* ===================================================================== *)

Section RouteProperties.
Import Js Eff Gateway.

Variable ML_SERVICE_URL : string.

(** The downstream call of the chat route, when it makes one. *)
Lemma chat_calls (req_body : JsVal) (d : Downstream) :
  fst (chat ML_SERVICE_URL req_body d) =
  match prop req_body "message", prop req_body "history" with
  | Some (VStr s), Some h =>
      if String.eqb s "" then []
      else [mkCall "POST" (ML_SERVICE_URL +:+ "/chat")
              (VObj [("input", VStr s); ("message", VStr s);
                     ("history", js_or h (VArr []))])
              30000]
  | _, _ => []
  end.
Proof.
  unfold chat, destructure, get.
  destruct (prop req_body "message") as [m |] eqn:Hm; [| reflexivity].
  destruct (prop req_body "history") as [h |] eqn:Hh.
  2: { destruct req_body; simpl in Hm, Hh; discriminate. }
  destruct m as [| | b | n | s | items | fields]; try reflexivity.
  simpl. destruct (String.eqb s ""); simpl; [reflexivity |].
  destruct (settle 30000 d) as [a | e |]; simpl; try reflexivity.
  destruct (prop (ax_data a) "success") as [x |] eqn:Hx; simpl;
    [| reflexivity].
  destruct (prop_defined _ _ "response" _ Hx) as [reply ->].
  destruct (prop_defined _ _ "shouldTransition" _ Hx) as [flag ->].
  reflexivity.
Qed.

(** X1: the chat route answers every request, whatever the body and however
    the ML service behaves, after at most one downstream call; that call is
    made exactly when the message is a non-empty string, it is a POST to
    [/chat] with the 30 second timeout, and it carries the message unchanged
    under both [input] and [message] and the history, or an empty array
    when the request has none. *)
Theorem chat_forwards_once (req_body : JsVal) (d : Downstream) :
  (exists resp, outcome_of (chat ML_SERVICE_URL req_body d) = Done resp)
  /\ fst (chat ML_SERVICE_URL req_body d) =
     match prop req_body "message", prop req_body "history" with
     | Some (VStr s), Some h =>
         if String.eqb s "" then []
         else [mkCall "POST" (ML_SERVICE_URL +:+ "/chat")
                 (VObj [("input", VStr s); ("message", VStr s);
                        ("history", js_or h (VArr []))])
                 30000]
     | _, _ => []
     end.
Proof.
  split; [apply chat_always_answers | apply chat_calls].
Qed.

(** X2: a message that is neither absent, [null] nor a string (a number,
    a boolean, an array, an object) never reaches the ML service: the log
    line's [message?.substring] throws, and the route answers 500 with that
    TypeError as [error] and [details], also for the falsy [0] and
    [false]. *)
Theorem chat_rejects_non_string_message (req_body m : JsVal) (d : Downstream) :
  prop req_body "message" = Some m ->
  m <> VUndefined -> m <> VNull -> is_string m = false ->
  chat ML_SERVICE_URL req_body d =
    ([], Done (mkResponse 500
                 (VObj [("success", VBool false);
                        ("error", VStr "message?.substring is not a function");
                        ("details", VStr "message?.substring is not a function");
                        ("mlServiceUrl", VStr ML_SERVICE_URL)]))).
Proof.
  intros Hm Hu Hn Hs. unfold chat, destructure.
  assert (Hh : exists h, prop req_body "history" = Some h).
  { destruct req_body; simpl in Hm |- *; try discriminate; eauto. }
  destruct Hh as [h Hh]. rewrite Hm, Hh.
  destruct m; try congruence; try discriminate Hs; reflexivity.
Qed.

(** X3: when the ML service answers the chat call in time with a final
    status from 300 to 599, the route answers with that same status; the
    body then has the service's [error] field as [error] when it is truthy
    and the HTTP client's "Request failed with status code N" otherwise, and
    likewise for [details]; only at 304 no body is sent. *)
Theorem chat_relays_error_status (req_body h : JsVal) (s : string)
    (latency status : Z) (data : JsVal) :
  prop req_body "message" = Some (VStr s) -> s <> "" ->
  prop req_body "history" = Some h ->
  (latency <= 30000)%Z ->
  (300 <= status <= 599)%Z ->
  outcome_of (chat ML_SERVICE_URL req_body (Replies latency status data)) =
    Done (mkResponse status
            (if (status =? 304)%Z then VUndefined
             else
               VObj [("success", VBool false);
                     ("error",
                      js_or (opt_prop data "error")
                        (VStr ("Request failed with status code " +:+
                               pretty status)));
                     ("details",
                      js_or (opt_prop data "details")
                        (VStr ("Request failed with status code " +:+
                               pretty status)));
                     ("mlServiceUrl", VStr ML_SERVICE_URL)])).
Proof.
  intros Hm Hs Hh Hl Hst. unfold chat, destructure, get.
  rewrite Hm, Hh. simpl.
  destruct (String.eqb_spec s "") as [-> | _]; [congruence |]. simpl.
  replace (30000 <? latency)%Z with false by lia.
  replace ((200 <=? status)%Z && (status <? 300)%Z) with false by lia.
  simpl.
  assert (Hcode : js_or (VNum status) (VNum 500) = VNum status).
  { unfold js_or. simpl.
    destruct (Z.eqb_spec status 0); [lia | reflexivity]. }
  rewrite Hcode.
  assert (Herr : forall a msg,
            js_or (js_or a (VStr ("Request failed with status code " +:+ msg)))
                  (VStr "Failed to process chat message")
            = js_or a (VStr ("Request failed with status code " +:+ msg))).
  { intros a msg. unfold js_or at 1.
    rewrite js_or_truthy_r by reflexivity. reflexivity. }
  rewrite Herr.
  assert (Hbody : sends_body status = negb (status =? 304)%Z).
  { unfold sends_body.
    replace (status =? 204)%Z with false by lia.
    replace (status =? 205)%Z with false by lia. reflexivity. }
  rewrite Hbody. destruct (status =? 304)%Z; reflexivity.
Qed.

(** X4: an answer of the ML service with a 2xx status whose body is [null]
    (or missing) is not relayed: reading [response.data.success] for the log
    line throws, and the route answers 500 with that TypeError. *)
Theorem chat_null_answer_is_failure (req_body h : JsVal) (s : string)
    (latency status : Z) (data : JsVal) :
  prop req_body "message" = Some (VStr s) -> s <> "" ->
  prop req_body "history" = Some h ->
  (latency <= 30000)%Z -> (200 <= status < 300)%Z ->
  data = VNull \/ data = VUndefined ->
  outcome_of (chat ML_SERVICE_URL req_body (Replies latency status data)) =
    Done (mkResponse 500
            (VObj [("success", VBool false);
                   ("error",
                    VStr ("Cannot read properties of " +:+ to_string data +:+
                          " (reading 'success')"));
                   ("details",
                    VStr ("Cannot read properties of " +:+ to_string data +:+
                          " (reading 'success')"));
                   ("mlServiceUrl", VStr ML_SERVICE_URL)])).
Proof.
  intros Hm Hs Hh Hl Hst Hdata. unfold chat, destructure, get.
  rewrite Hm, Hh. simpl.
  destruct (String.eqb_spec s "") as [-> | _]; [congruence |]. simpl.
  replace (30000 <? latency)%Z with false by lia.
  replace ((200 <=? status)%Z && (status <? 300)%Z) with true by lia.
  destruct Hdata as [-> | ->]; reflexivity.
Qed.

Lemma settle_without_timeout (d : Downstream) :
  settle 0 d =
  match d with
  | Replies latency status data =>
      if ((200 <=? status)%Z && (status <? 300)%Z)
      then Done (mkAxios status data)
      else Throws (status_error status data)
  | Refuses reason => Throws (mkError reason None)
  | NeverReplies => Pending
  end.
Proof. destruct d; reflexivity. Qed.

(** X5: the booking route answers a 2xx answer of the ML service with
    status 200 and the service's body as [booking]; every failure with
    status 500, the fixed error "Failed to book appointment" and as
    [details] the HTTP client's own message ("Request failed with status
    code N", or the connection error) or, for a missing body, the TypeError
    of the destructuring; the body of an error answer of the ML service
    appears nowhere in the answer.  It stays unanswered exactly when the
    ML service never replies. *)
Theorem book_answer_shape (req_body : JsVal) (d : Downstream) :
  outcome_of (book ML_SERVICE_URL req_body d) =
  match prop req_body "doctorId" with
  | None =>
      Done (mkResponse 500
              (VObj [("success", VBool false);
                     ("error", VStr "Failed to book appointment");
                     ("details",
                      VStr ("Cannot destructure property 'doctorId' of " +:+
                            "'req.body' as it is " +:+ to_string req_body +:+
                            "."))]))
  | Some _ =>
      match d with
      | Replies latency status data =>
          if ((200 <=? status)%Z && (status <? 300)%Z)
          then Done (mkResponse 200
                       (VObj [("success", VBool true); ("booking", data)]))
          else Done (mkResponse 500
                       (VObj [("success", VBool false);
                              ("error", VStr "Failed to book appointment");
                              ("details",
                               VStr ("Request failed with status code " +:+
                                     pretty status))]))
      | Refuses reason =>
          Done (mkResponse 500
                  (VObj [("success", VBool false);
                         ("error", VStr "Failed to book appointment");
                         ("details", VStr reason)]))
      | NeverReplies => Pending
      end
  end.
Proof.
  unfold book, destructure.
  destruct (prop req_body "doctorId") as [v1 |] eqn:H1; [| reflexivity].
  destruct (prop_defined _ _ "patientName" _ H1) as [v2 ->].
  destruct (prop_defined _ _ "patientEmail" _ H1) as [v3 ->].
  destruct (prop_defined _ _ "datetime" _ H1) as [v4 ->].
  unfold axios. rewrite settle_without_timeout.
  destruct d as [latency status data | reason |]; simpl; try reflexivity.
  destruct ((200 <=? status)%Z && (status <? 300)%Z); reflexivity.
Qed.

(** X6: the credentials posted to the init-auth route are forwarded to
    [/set_credentials] as they are, whatever they are, in one call without
    timeout; a 2xx answer of the ML service is echoed as
    [mlServiceResponse] under status 200, every failure is answered by 500
    with the fixed error "Failed to set credentials" and the HTTP client's
    message as [details], and the route stays unanswered exactly when the
    ML service never replies. *)
Theorem init_auth_forwards_credentials (credentials : JsVal) (d : Downstream) :
  fst (init_auth ML_SERVICE_URL credentials d) =
    [mkCall "POST" (ML_SERVICE_URL +:+ "/set_credentials") credentials 0]
  /\ outcome_of (init_auth ML_SERVICE_URL credentials d) =
     match d with
     | Replies latency status data =>
         if ((200 <=? status)%Z && (status <? 300)%Z)
         then Done (mkResponse 200
                      (VObj [("success", VBool true);
                             ("message", VStr "Credentials successfully set");
                             ("mlServiceResponse", data)]))
         else Done (mkResponse 500
                      (VObj [("success", VBool false);
                             ("error", VStr "Failed to set credentials");
                             ("details",
                              VStr ("Request failed with status code " +:+
                                    pretty status))]))
     | Refuses reason =>
         Done (mkResponse 500
                 (VObj [("success", VBool false);
                        ("error", VStr "Failed to set credentials");
                        ("details", VStr reason)]))
     | NeverReplies => Pending
     end.
Proof.
  unfold init_auth, axios. rewrite settle_without_timeout.
  destruct d as [latency status data | reason |]; simpl;
    try (split; reflexivity).
  destruct ((200 <=? status)%Z && (status <? 300)%Z); split; reflexivity.
Qed.

(** X7: the check-auth route passes a 2xx answer of the ML service through
    as its whole body, whatever it is, under status 200; any failure of the
    call is answered by 500 with the fixed error "Failed to check
    authentication status"; and it stays unanswered exactly when the ML
    service never replies. *)
Theorem check_auth_passes_through (d : Downstream) :
  match d with
  | Replies latency status data =>
      if ((200 <=? status)%Z && (status <? 300)%Z)
      then outcome_of (check_auth ML_SERVICE_URL d)
           = Done (mkResponse 200 data)
      else outcome_of (check_auth ML_SERVICE_URL d)
           = Done (mkResponse 500
                     (VObj [("success", VBool false);
                            ("error",
                             VStr "Failed to check authentication status");
                            ("details",
                             VStr ("Request failed with status code " +:+
                                   pretty status))]))
  | Refuses reason =>
      outcome_of (check_auth ML_SERVICE_URL d)
      = Done (mkResponse 500
                (VObj [("success", VBool false);
                       ("error", VStr "Failed to check authentication status");
                       ("details", VStr reason)]))
  | NeverReplies => outcome_of (check_auth ML_SERVICE_URL d) = Pending
  end.
Proof.
  unfold check_auth, axios. rewrite settle_without_timeout.
  destruct d as [latency status data | reason |]; simpl; try reflexivity.
  destruct ((200 <=? status)%Z && (status <? 300)%Z); reflexivity.
Qed.

Lemma assoc_absent (k : string) (fs : list (string * JsVal)) :
  ~ In k (map fst fs) -> assoc k fs = VUndefined.
Proof.
  induction fs as [| [k' v] rest IH]; simpl; [reflexivity |].
  intros Hnot. destruct (String.eqb_spec k k') as [-> | Hne].
  - exfalso. apply Hnot. left. reflexivity.
  - apply IH. intros Hin. apply Hnot. right. exact Hin.
Qed.

(** Reading a property after the JSON round trip of an object with
    distinct keys: dropped [undefined] properties read as [undefined]. *)
Lemma assoc_omit_undefined (k : string) (fs : list (string * JsVal)) :
  List.NoDup (map fst fs) -> assoc k (omit_undefined fs) = assoc k fs.
Proof.
  induction fs as [| [k' v] rest IH]; simpl; [reflexivity |].
  intros Hnd. inversion Hnd as [| ? ? Hnot Hrest]; subst.
  specialize (IH Hrest).
  destruct v; simpl; try (rewrite IH; reflexivity).
  rewrite IH. destruct (String.eqb_spec k k') as [-> | _]; [| reflexivity].
  apply assoc_absent, Hnot.
Qed.

(** X8: the booking route validates nothing: any object body leads to
    exactly one POST to [/book_appointment], without timeout, in which
    [doctorId], [patientName], [patientEmail] and [datetime] travel as
    [doctor_id], [patient_name], [patient_email] and [datetime_iso]; a
    field missing from the request is missing from the forwarded JSON. *)
Theorem book_forwards_renamed (fields : list (string * JsVal))
    (d : Downstream) :
  exists forwarded,
    fst (book ML_SERVICE_URL (VObj fields) d) =
      [mkCall "POST" (ML_SERVICE_URL +:+ "/book_appointment") forwarded 0]
    /\ opt_prop (json_wire forwarded) "doctor_id"
       = json_wire (assoc "doctorId" fields)
    /\ opt_prop (json_wire forwarded) "patient_name"
       = json_wire (assoc "patientName" fields)
    /\ opt_prop (json_wire forwarded) "patient_email"
       = json_wire (assoc "patientEmail" fields)
    /\ opt_prop (json_wire forwarded) "datetime_iso"
       = json_wire (assoc "datetime" fields).
Proof.
  eexists. split.
  - unfold book, destructure, axios. simpl.
    destruct (settle 0 d); reflexivity.
  - cbn [json_wire map fst snd]. unfold opt_prop, prop.
    assert (Hnd : forall a b c e : JsVal,
              List.NoDup (map fst [("doctor_id", a); ("patient_name", b);
                                   ("patient_email", c); ("datetime_iso", e)])).
    { intros. simpl. repeat constructor; simpl; intuition discriminate. }
    rewrite !assoc_omit_undefined by apply Hnd.
    repeat split.
Qed.

End RouteProperties.

(* ===================================================================== *)
(** * Further properties of the chat page *)
(* ===================================================================== *)

Section PageProperties.
Import Js Eff ChatPage.

Variable API_URL : string.
Variable ML_SERVICE_URL : string.

(** The paths through the [try] block, one goal each. *)
Ltac send_try_paths status data :=
  unfold send_try, fetch, get, json, throw_new_Error; simpl;
  destruct (ok status); simpl;
  [ destruct (prop data "success") as [?x |] eqn:?Hx; simpl;
    [ destruct (prop_defined _ _ "response" _ Hx) as [?reply ->];
      destruct (prop_defined _ _ "shouldTransition" _ Hx) as [?flag ->];
      destruct (prop_defined _ _ "error" _ Hx) as [?err ->];
      destruct (prop_defined _ _ "details" _ Hx) as [?det ->];
      destruct (truthy x); simpl
    | ]
  | destruct (prop data "error") as [?err |] eqn:?He; simpl;
    [ destruct (prop_defined _ _ "details" _ He) as [?det ->]; simpl | ] ].

(** The [try] block makes exactly the one request. *)
Lemma send_try_calls (st : ChatState) (net : FetchResult) :
  fst (send_try API_URL st net) = [chat_request API_URL st].
Proof.
  destruct net as [status [data | junk] | reason |].
  - send_try_paths status data; reflexivity.
  - unfold send_try, fetch, json. simpl. destruct (ok status); reflexivity.
  - reflexivity.
  - reflexivity.
Qed.

(** Once [fetch] has settled, so has the [try] block. *)
Lemma send_try_settles (st : ChatState) (net : FetchResult) :
  net <> FetchPending -> snd (send_try API_URL st net) <> Pending.
Proof.
  intros Hnet. destruct net as [status [data | junk] | reason |].
  - send_try_paths status data; discriminate.
  - unfold send_try, fetch, json. simpl. destruct (ok status); discriminate.
  - discriminate.
  - congruence.
Qed.

Lemma handleSend_enabled (st : ChatState) (net : FetchResult) :
  send_disabled st = false ->
  handleSend API_URL st net =
    match snd (send_try API_URL st net) with
    | Done (reply, shouldTransition) =>
        (mkChat (messages st ++
                 [mkMessage user (VStr (input st)); mkMessage assistant reply])
                "" false,
         mkEffects [chat_request API_URL st] []
           (if truthy shouldTransition then ["/doctors"] else []))
    | Throws error =>
        (mkChat (messages st ++
                 [mkMessage user (VStr (input st));
                  mkMessage assistant (VStr (apology (message error)))])
                "" false,
         mkEffects [chat_request API_URL st] [message error] [])
    | Pending =>
        (mkChat (messages st ++ [mkMessage user (VStr (input st))]) "" true,
         mkEffects [chat_request API_URL st] [] [])
    end.
Proof.
  intros Hsend. destruct (send_enabled st Hsend) as (Hload & Htrim & _).
  unfold handleSend. rewrite Htrim, Hload. simpl.
  pose proof (send_try_calls st net) as Hcalls.
  destruct (send_try API_URL st net) as [calls [[reply flag] | e |]];
    simpl in Hcalls; subst calls; simpl; rewrite <- ?app_assoc; reflexivity.
Qed.

Lemma handleSend_disabled (st : ChatState) (net : FetchResult) :
  send_disabled st = true -> handleSend API_URL st net = (st, no_effects).
Proof.
  unfold send_disabled, handleSend. intros H. rewrite orb_comm, H. reflexivity.
Qed.

(** X9: when the backend answers a sent message with an ok status and a
    body whose [success] is truthy, the page appends the user's message and
    then the body's [response] as the assistant's message, clears the input,
    leaves the loading state, shows no toast, and schedules the navigation
    to [/doctors] exactly when the body's [shouldTransition] is truthy. *)
Theorem handleSend_success (st : ChatState) (status : Z) (data x : JsVal) :
  send_disabled st = false ->
  ok status = true ->
  prop data "success" = Some x -> truthy x = true ->
  handleSend API_URL st (Responds status (inl data)) =
    (mkChat (messages st ++
             [mkMessage user (VStr (input st));
              mkMessage assistant (opt_prop data "response")])
            "" false,
     mkEffects [chat_request API_URL st] []
       (if truthy (opt_prop data "shouldTransition")
        then ["/doctors"] else [])).
Proof.
  intros Hsend Hok Hx Htruthy. rewrite (handleSend_enabled st _ Hsend).
  unfold send_try, fetch, get, json. simpl. rewrite Hok. simpl.
  unfold opt_prop. rewrite Hx. simpl. rewrite Htruthy.
  destruct (prop_defined _ _ "response" _ Hx) as [reply ->].
  destruct (prop_defined _ _ "shouldTransition" _ Hx) as [flag ->].
  reflexivity.
Qed.

(** X10: [handleSend] acts exactly when the send button is enabled.  When
    it acts it makes exactly one request, keeps every earlier message in
    place, and appends the user's input as typed followed by at most one
    assistant message; otherwise it changes nothing. *)
Theorem handleSend_transcript_grows (st : ChatState) (net : FetchResult) :
  (send_disabled st = true
   /\ handleSend API_URL st net = (st, no_effects))
  \/ (send_disabled st = false
      /\ requests (snd (handleSend API_URL st net)) = [chat_request API_URL st]
      /\ exists rest,
           messages (fst (handleSend API_URL st net)) =
             messages st ++ mkMessage user (VStr (input st)) :: rest
           /\ (length rest <= 1)%nat
           /\ Forall (fun m => role m = assistant) rest).
Proof.
  destruct (send_disabled st) eqn:Hsend.
  - left. split; [reflexivity | apply handleSend_disabled, Hsend].
  - right. split; [reflexivity |]. rewrite (handleSend_enabled st net Hsend).
    destruct (snd (send_try API_URL st net)) as [[reply flag] | e |]; simpl;
      (split; [reflexivity |]); eexists; (split; [reflexivity |]);
      split; simpl; try lia; repeat constructor.
Qed.

(** X11: once the request of a sent message has settled, with an answer
    of any kind or with a network failure, the page is no longer loading
    and the input is empty; the page cannot stay locked. *)
Theorem handleSend_unlocks (st : ChatState) (net : FetchResult) :
  send_disabled st = false ->
  net <> FetchPending ->
  isLoading (fst (handleSend API_URL st net)) = false
  /\ input (fst (handleSend API_URL st net)) = "".
Proof.
  intros Hsend Hnet. rewrite (handleSend_enabled st net Hsend).
  pose proof (send_try_settles st net Hnet) as Hsettled.
  destruct (snd (send_try API_URL st net)) as [[reply flag] | e |]; simpl;
    [split; reflexivity | split; reflexivity | congruence].
Qed.

(** X12: while the request of a message is pending, sending again does
    nothing: no second request, no change of the state. *)
Theorem handleSend_no_double_submit (st : ChatState) (net : FetchResult) :
  handleSend API_URL (fst (handleSend API_URL st FetchPending)) net
  = (fst (handleSend API_URL st FetchPending), no_effects).
Proof.
  apply handleSend_disabled.
  destruct (send_disabled st) eqn:Hsend.
  - rewrite (handleSend_disabled st _ Hsend). exact Hsend.
  - rewrite (handleSend_enabled st _ Hsend). reflexivity.
Qed.

(** X13: on every path the page shows at most one toast, and a toast is
    always mirrored in the transcript: the last message is then the
    assistant's apology quoting the toast's text, and no navigation is
    scheduled. *)
Theorem handleSend_toast_mirrored (st : ChatState) (net : FetchResult) :
  toasts (snd (handleSend API_URL st net)) = []
  \/ exists errorMessage,
       toasts (snd (handleSend API_URL st net)) = [errorMessage]
       /\ last (messages (fst (handleSend API_URL st net)))
          = Some (mkMessage assistant (VStr (apology errorMessage)))
       /\ navigations (snd (handleSend API_URL st net)) = [].
Proof.
  destruct (send_disabled st) eqn:Hsend.
  - left. rewrite (handleSend_disabled st net Hsend). reflexivity.
  - rewrite (handleSend_enabled st net Hsend).
    destruct (snd (send_try API_URL st net)) as [[reply flag] | e |]; simpl;
      [left; reflexivity | | left; reflexivity].
    right. exists (message e). split; [reflexivity |].
    split; [| reflexivity].
    replace (messages st ++
             [mkMessage user (VStr (input st));
              mkMessage assistant (VStr (apology (message e)))])
      with ((messages st ++ [mkMessage user (VStr (input st))]) ++
            [mkMessage assistant (VStr (apology (message e)))])
      by (rewrite <- app_assoc; reflexivity).
    apply last_snoc.
Qed.

(** X14: an error answer whose body is not JSON (a proxy's HTML page, an
    empty body) is reported as "HTTP <status>": the toast shows it and the
    assistant's apology quotes it. *)
Theorem non_json_error_answer (st : ChatState) (status : Z) (junk : string) :
  send_disabled st = false ->
  ok status = false ->
  handleSend API_URL st (Responds status (inr junk)) =
    (mkChat (messages st ++
             [mkMessage user (VStr (input st));
              mkMessage assistant
                (VStr (apology ("HTTP " +:+ pretty status)))])
            "" false,
     mkEffects [chat_request API_URL st] ["HTTP " +:+ pretty status] []).
Proof.
  intros Hsend Hok. rewrite (handleSend_enabled st _ Hsend).
  unfold send_try, fetch, get, json. simpl. rewrite Hok. reflexivity.
Qed.

End PageProperties.

(* ===================================================================== *)
(** * Further properties of a whole turn *)
(* ===================================================================== *)

Section TurnProperties.
Import Js Eff.

Variable API_URL : string.
Variable ML_SERVICE_URL : string.

Lemma via_gateway_settles (st : ChatPage.ChatState) (d : Downstream) :
  Turn.via_gateway ML_SERVICE_URL (ChatPage.chat_request API_URL st) d
  <> ChatPage.FetchPending.
Proof.
  unfold Turn.via_gateway.
  destruct (chat_always_answers ML_SERVICE_URL
              (json_wire (call_body (ChatPage.chat_request API_URL st))) d)
    as [resp Hresp].
  destruct (Gateway.chat ML_SERVICE_URL _ d) as [calls o].
  simpl in Hresp. subst o. discriminate.
Qed.

(** X15: a message sent from the page never leaves it loading: however
    the ML service behaves (silent, down, slow, answering anything), the
    gateway answers, and after the turn the page is idle with an empty
    input and exactly one more user message followed by one assistant
    message. *)
Theorem turn_always_completes (st : ChatPage.ChatState) (d : Downstream) :
  ChatPage.send_disabled st = false ->
  ChatPage.isLoading (fst (Turn.turn API_URL ML_SERVICE_URL st d)) = false
  /\ ChatPage.input (fst (Turn.turn API_URL ML_SERVICE_URL st d)) = ""
  /\ exists answer,
       ChatPage.messages (fst (Turn.turn API_URL ML_SERVICE_URL st d)) =
         ChatPage.messages st ++
         [ChatPage.mkMessage ChatPage.user (VStr (ChatPage.input st));
          ChatPage.mkMessage ChatPage.assistant answer].
Proof.
  intros Hsend. unfold Turn.turn.
  rewrite (handleSend_enabled API_URL st _ Hsend).
  pose proof (send_try_settles API_URL st _ (via_gateway_settles st d))
    as Hsettled.
  destruct (snd (ChatPage.send_try API_URL st _)) as [[reply flag] | e |];
    simpl; [| | congruence]; repeat split; eauto.
Qed.

(** X16: what the page lets through, the gateway forwards: for a message
    that passes the page's guard the gateway makes its one call to the ML
    service, carrying the input exactly as typed (not trimmed) under
    [input] and [message], and as [history] the transcript as it was
    before this message, serialised. *)
Theorem turn_forwards_input (st : ChatPage.ChatState) (d : Downstream) :
  ChatPage.send_disabled st = false ->
  fst (Gateway.chat ML_SERVICE_URL
         (json_wire (call_body (ChatPage.chat_request API_URL st))) d) =
    [mkCall "POST" (ML_SERVICE_URL +:+ "/chat")
       (VObj [("input", VStr (ChatPage.input st));
              ("message", VStr (ChatPage.input st));
              ("history",
               json_wire
                 (VArr (map (fun m =>
                               VObj [("role",
                                      ChatPage.role_json (ChatPage.role m));
                                     ("content", ChatPage.content m)])
                            (ChatPage.messages st))))])
       30000].
Proof.
  intros Hsend. destruct (send_enabled st Hsend) as (_ & _ & Hinput).
  rewrite chat_calls.
  change (prop (json_wire (call_body (ChatPage.chat_request API_URL st)))
            "message") with (Some (VStr (ChatPage.input st))).
  cbv iota beta.
  match goal with
  | |- context [prop ?b "history"] =>
      change (prop b "history")
        with (Some (json_wire
                      (VArr (map (fun m =>
                                    VObj [("role",
                                           ChatPage.role_json (ChatPage.role m));
                                          ("content", ChatPage.content m)])
                                 (ChatPage.messages st)))))
  end.
  cbv iota beta.
  destruct (String.eqb_spec (ChatPage.input st) "") as [Heq | _];
    [congruence |].
  reflexivity.
Qed.

(** The chat page reading a success answer of the gateway. *)
Lemma send_try_success_answer (st : ChatPage.ChatState) (reply flag : JsVal) :
  ChatPage.send_try API_URL st
    (ChatPage.Responds 200
       (inl (VObj (omit_undefined
                     [("success", VBool true); ("response", reply);
                      ("shouldTransition", flag)]))))
  = ([ChatPage.chat_request API_URL st], Done (reply, flag)).
Proof. destruct reply, flag; reflexivity. Qed.

(** X17: a turn that the ML service answers in time with a 2xx status and
    an object body ends on the page with the service's [response] as the
    assistant's message (as it survives the JSON wire), no toast, and the
    navigation to [/doctors] exactly when the service's [shouldTransition]
    is truthy; the service's own [success] field plays no part. *)
Theorem turn_success (st : ChatPage.ChatState) (latency status : Z)
    (data x : JsVal) :
  ChatPage.send_disabled st = false ->
  (latency <= 30000)%Z -> (200 <= status < 300)%Z ->
  prop data "success" = Some x ->
  Turn.turn API_URL ML_SERVICE_URL st (Replies latency status data) =
    (ChatPage.mkChat
       (ChatPage.messages st ++
        [ChatPage.mkMessage ChatPage.user (VStr (ChatPage.input st));
         ChatPage.mkMessage ChatPage.assistant
           (json_wire (opt_prop data "response"))])
       "" false,
     ChatPage.mkEffects [ChatPage.chat_request API_URL st] []
       (if truthy (opt_prop data "shouldTransition")
        then ["/doctors"] else [])).
Proof.
  intros Hsend Hl Hst Hx.
  destruct (send_enabled st Hsend) as (_ & _ & Hinput).
  unfold Turn.turn. rewrite (handleSend_enabled API_URL st _ Hsend).
  assert (Hvia :
    Turn.via_gateway ML_SERVICE_URL (ChatPage.chat_request API_URL st)
      (Replies latency status data)
    = ChatPage.Responds 200
        (inl (VObj (omit_undefined
                      [("success", VBool true);
                       ("response", json_wire (opt_prop data "response"));
                       ("shouldTransition",
                        json_wire (js_or (opt_prop data "shouldTransition")
                                         (VBool false)))])))).
  { unfold Turn.via_gateway, Gateway.chat, destructure, get.
    change (prop (json_wire (call_body (ChatPage.chat_request API_URL st)))
              "message") with (Some (VStr (ChatPage.input st))).
    match goal with
    | |- context [prop ?b "history"] =>
        change (prop b "history") with (Some (opt_prop b "history"))
    end.
    simpl.
    destruct (String.eqb_spec (ChatPage.input st) "") as [Heq | _];
      [congruence |].
    simpl.
    replace (30000 <? latency)%Z with false by lia.
    replace ((200 <=? status)%Z && (status <? 300)%Z) with true by lia.
    simpl. unfold opt_prop. rewrite Hx.
    destruct (prop_defined _ _ "response" _ Hx) as [reply ->].
    destruct (prop_defined _ _ "shouldTransition" _ Hx) as [flag ->].
    reflexivity. }
  rewrite Hvia, send_try_success_answer. simpl.
  rewrite truthy_json_wire.
  replace (truthy (js_or (opt_prop data "shouldTransition") (VBool false)))
    with (truthy (opt_prop data "shouldTransition"))
    by (unfold js_or;
        destruct (truthy (opt_prop data "shouldTransition")) eqn:Ht;
        [exact (eq_sym Ht) | reflexivity]).
  reflexivity.
Qed.

End TurnProperties.

(* ===================================================================== *)
(** * Properties of the doctors page and of the dashboard preview *)
(* ===================================================================== *)

Section OtherPages.

Lemma timers_drain (pending : list string) (st : DoctorsPage.DoctorsState) :
  DoctorsPage.timers st = pending ->
  DoctorsPage.run st (repeat DoctorsPage.TimerFires (length pending)) =
    DoctorsPage.mkDoctors
      (match pending with
       | [] => DoctorsPage.selectedDoctor st
       | _ => None
       end)
      []
      (DoctorsPage.toasts st ++ map DoctorsPage.confirmation pending).
Proof.
  revert st. induction pending as [| doctorName rest IH]; intros st Hst; simpl.
  - rewrite app_nil_r. destruct st as [sel ts toasts]. simpl in Hst.
    subst ts. reflexivity.
  - change (DoctorsPage.run st
              (DoctorsPage.TimerFires ::
               repeat DoctorsPage.TimerFires (length rest)))
      with (DoctorsPage.run (DoctorsPage.timer_fires st)
              (repeat DoctorsPage.TimerFires (length rest))).
    assert (Hfired : DoctorsPage.timer_fires st =
                     DoctorsPage.mkDoctors None rest
                       (DoctorsPage.toasts st ++
                        [DoctorsPage.confirmation doctorName])).
    { unfold DoctorsPage.timer_fires. rewrite Hst. reflexivity. }
    rewrite Hfired.
    rewrite (IH (DoctorsPage.mkDoctors None rest
                   (DoctorsPage.toasts st ++
                    [DoctorsPage.confirmation doctorName])) eq_refl).
    simpl. rewrite <- app_assoc.
    destruct rest; reflexivity.
Qed.

(** X18: a click on an enabled booking button disables that doctor's
    button at once, and when all pending timers have run, the confirmations
    scheduled earlier have been shown in order, followed by the one that
    names the clicked doctor; then no doctor is selected and no timer is
    left.  Every accepted click ends in its success toast. *)
Theorem booking_click_is_confirmed (st : DoctorsPage.DoctorsState)
    (doctorId doctorName : string) :
  DoctorsPage.button_disabled st doctorId = false ->
  DoctorsPage.button_disabled
    (DoctorsPage.react st (DoctorsPage.Click doctorId doctorName)) doctorId
  = true
  /\ DoctorsPage.run
       (DoctorsPage.react st (DoctorsPage.Click doctorId doctorName))
       (repeat DoctorsPage.TimerFires (S (length (DoctorsPage.timers st))))
     = DoctorsPage.mkDoctors None []
         (DoctorsPage.toasts st ++
          map DoctorsPage.confirmation (DoctorsPage.timers st) ++
          [DoctorsPage.confirmation doctorName]).
Proof.
  intros Henabled. unfold DoctorsPage.react. rewrite Henabled. split.
  - unfold DoctorsPage.button_disabled, DoctorsPage.handleConfirmBooking.
    simpl. apply String.eqb_refl.
  - pose proof (timers_drain (DoctorsPage.timers st ++ [doctorName])
                  (DoctorsPage.handleConfirmBooking doctorId doctorName st)
                  eq_refl) as Hdrain.
    rewrite length_app in Hdrain. simpl in Hdrain.
    rewrite Nat.add_1_r in Hdrain. rewrite Hdrain.
    rewrite map_app. simpl.
    destruct (DoctorsPage.timers st); reflexivity.
Qed.

Lemma dashboard_after (n : nat) :
  DashboardPage.after n = Nat.min n (length DashboardPage.sampleMessages).
Proof.
  induction n as [| n IH]; [reflexivity |].
  simpl DashboardPage.after. rewrite IH. unfold DashboardPage.period.
  change (length DashboardPage.sampleMessages) with 6%nat.
  destruct (Nat.ltb_spec (Nat.min n 6) 6); lia.
Qed.

(** X19: the chat preview of the dashboard starts empty, shows one more
    sample message after each period of 1500 ms, in order, and stops when
    all six are shown: after [n] periods it shows exactly the first [n]
    sample messages (all of them from the sixth period on), and the typing
    dots are shown exactly while some are missing. *)
Theorem dashboard_preview_after (n : nat) :
  DashboardPage.preview (DashboardPage.after n)
  = firstn n DashboardPage.sampleMessages
  /\ DashboardPage.typing (DashboardPage.after n)
     = (n <? length DashboardPage.sampleMessages)%nat
  /\ (length (DashboardPage.preview (DashboardPage.after n))
      = Nat.min n 6)%nat.
Proof.
  unfold DashboardPage.preview, DashboardPage.typing.
  rewrite dashboard_after.
  change (length DashboardPage.sampleMessages) with 6%nat.
  destruct (Nat.le_gt_cases n 6) as [Hle | Hgt].
  - rewrite Nat.min_l by exact Hle. split; [reflexivity |]. split.
    + reflexivity.
    + rewrite length_firstn. change (length DashboardPage.sampleMessages) with 6%nat.
      lia.
  - rewrite Nat.min_r by lia. split; [| split].
    + rewrite !firstn_all2; [reflexivity | simpl; lia | simpl; lia].
    + destruct (Nat.ltb_spec n 6); [lia | reflexivity].
    + reflexivity.
Qed.

End OtherPages.

(* ===================================================================== *)
(** * The further properties at concrete inputs *)
(* ===================================================================== *)

Lemma chat_rejects_non_string_message_witness :
  Eff.outcome_of
    (Gateway.chat "http://localhost:5001"
       (Js.VObj [("message", Js.VNum 0)]) Eff.NeverReplies)
  = Eff.Done
      (Gateway.mkResponse 500
         (Js.VObj [("success", Js.VBool false);
                   ("error", Js.VStr "message?.substring is not a function");
                   ("details", Js.VStr "message?.substring is not a function");
                   ("mlServiceUrl", Js.VStr "http://localhost:5001")])).
Proof.
  rewrite (chat_rejects_non_string_message "http://localhost:5001"
             (Js.VObj [("message", Js.VNum 0)]) (Js.VNum 0) Eff.NeverReplies);
    [reflexivity | reflexivity | discriminate | discriminate | reflexivity].
Defined.

Lemma chat_relays_error_status_witness :
  Eff.outcome_of
    (Gateway.chat "http://localhost:5001"
       (Js.VObj [("message", Js.VStr "Hello")])
       (Eff.Replies 10 503
          (Js.VObj [("error", Js.VStr "Calendar service not initialized")])))
  = Eff.Done
      (Gateway.mkResponse 503
         (Js.VObj [("success", Js.VBool false);
                   ("error", Js.VStr "Calendar service not initialized");
                   ("details", Js.VStr "Request failed with status code 503");
                   ("mlServiceUrl", Js.VStr "http://localhost:5001")])).
Proof.
  rewrite (chat_relays_error_status "http://localhost:5001"
             (Js.VObj [("message", Js.VStr "Hello")]) Js.VUndefined "Hello"
             10 503
             (Js.VObj [("error", Js.VStr "Calendar service not initialized")]));
    [reflexivity | reflexivity | discriminate | reflexivity | lia | lia].
Defined.

Lemma chat_null_answer_is_failure_witness :
  Eff.outcome_of
    (Gateway.chat "http://localhost:5001"
       (Js.VObj [("message", Js.VStr "Hello")])
       (Eff.Replies 10 200 Js.VNull))
  = Eff.Done
      (Gateway.mkResponse 500
         (Js.VObj [("success", Js.VBool false);
                   ("error",
                    Js.VStr "Cannot read properties of null (reading 'success')");
                   ("details",
                    Js.VStr "Cannot read properties of null (reading 'success')");
                   ("mlServiceUrl", Js.VStr "http://localhost:5001")])).
Proof.
  rewrite (chat_null_answer_is_failure "http://localhost:5001"
             (Js.VObj [("message", Js.VStr "Hello")]) Js.VUndefined "Hello"
             10 200 Js.VNull);
    [reflexivity | reflexivity | discriminate | reflexivity | lia | lia
    | left; reflexivity].
Defined.

Lemma handleSend_success_witness :
  ChatPage.navigations
    (snd (ChatPage.handleSend "http://localhost:3001" ChatPage.waiting_to_send
            (ChatPage.Responds 200
               (inl (Js.VObj [("success", Js.VBool true);
                              ("response", Js.VStr "Nice to meet you, Sarah!");
                              ("shouldTransition", Js.VBool false)])))))
  = [].
Proof.
  rewrite (handleSend_success "http://localhost:3001" ChatPage.waiting_to_send
             200
             (Js.VObj [("success", Js.VBool true);
                       ("response", Js.VStr "Nice to meet you, Sarah!");
                       ("shouldTransition", Js.VBool false)])
             (Js.VBool true));
    reflexivity.
Defined.

Lemma handleSend_unlocks_witness :
  ChatPage.isLoading
    (fst (ChatPage.handleSend "http://localhost:3001" ChatPage.waiting_to_send
            (ChatPage.FetchFails "Failed to fetch"))) = false
  /\ ChatPage.input
       (fst (ChatPage.handleSend "http://localhost:3001"
               ChatPage.waiting_to_send
               (ChatPage.FetchFails "Failed to fetch"))) = "".
Proof.
  apply (handleSend_unlocks "http://localhost:3001" ChatPage.waiting_to_send
           (ChatPage.FetchFails "Failed to fetch"));
    [reflexivity | discriminate].
Defined.

Lemma non_json_error_answer_witness :
  ChatPage.toasts
    (snd (ChatPage.handleSend "http://localhost:3001" ChatPage.waiting_to_send
            (ChatPage.Responds 502 (inr "Unexpected token < in JSON"))))
  = ["HTTP 502"].
Proof.
  rewrite (non_json_error_answer "http://localhost:3001"
             ChatPage.waiting_to_send 502 "Unexpected token < in JSON");
    reflexivity.
Defined.

Lemma turn_always_completes_witness :
  ChatPage.isLoading
    (fst (Turn.turn "http://localhost:3001" "http://localhost:5001"
            ChatPage.waiting_to_send Eff.NeverReplies)) = false.
Proof.
  apply (turn_always_completes "http://localhost:3001" "http://localhost:5001"
           ChatPage.waiting_to_send Eff.NeverReplies).
  reflexivity.
Defined.

Lemma turn_forwards_input_witness :
  length
    (fst (Gateway.chat "http://localhost:5001"
            (Js.json_wire
               (Eff.call_body
                  (ChatPage.chat_request "http://localhost:3001"
                     ChatPage.waiting_to_send)))
            Eff.NeverReplies)) = 1%nat.
Proof.
  rewrite (turn_forwards_input "http://localhost:3001" "http://localhost:5001"
             ChatPage.waiting_to_send Eff.NeverReplies);
    reflexivity.
Defined.

Lemma turn_success_witness :
  ChatPage.navigations
    (snd (Turn.turn "http://localhost:3001" "http://localhost:5001"
            ChatPage.waiting_to_send
            (Eff.Replies 10 200
               (Js.VObj [("response", Js.VStr "Your appointment is booked.");
                         ("shouldTransition", Js.VBool true)]))))
  = ["/doctors"].
Proof.
  rewrite (turn_success "http://localhost:3001" "http://localhost:5001"
             ChatPage.waiting_to_send 10 200
             (Js.VObj [("response", Js.VStr "Your appointment is booked.");
                       ("shouldTransition", Js.VBool true)])
             Js.VUndefined);
    [reflexivity | reflexivity | lia | lia | reflexivity].
Defined.

Lemma booking_click_is_confirmed_witness :
  DoctorsPage.run
    (DoctorsPage.react DoctorsPage.initial
       (DoctorsPage.Click "1" "Dr. Pavan Kumar"))
    [DoctorsPage.TimerFires]
  = DoctorsPage.mkDoctors None []
      [DoctorsPage.confirmation "Dr. Pavan Kumar"].
Proof.
  apply (booking_click_is_confirmed DoctorsPage.initial "1" "Dr. Pavan Kumar").
  reflexivity.
Defined.
